(** * Flasher stub ([stub_flasher.c]): checksum, UART receive path and
      command dispatcher.

    The C file is embedded shallowly: unsigned machine integers are [Z]
    with casts written out, byte buffers are [list Z], the [ub] global is
    a record, and the dispatcher is a state-passing program over a world
    that records every call made to the ROM / flash collaborators. *)

From Stdlib Require Import ZArith List Lia Bool.
From stdpp Require Import base list.
Import ListNotations.
Local Open Scope Z_scope.

(** ** Machine integers *)

Definition to_uint8 (x : Z) : Z := x mod 256.
Definition to_uint16 (x : Z) : Z := x mod 65536.
Definition to_uint32 (x : Z) : Z := x mod 4294967296.

Definition is_byte (b : Z) : Prop := 0 <= b < 256.

(** ** Checksum utility *)

(** One iteration of [res ^= buf[i]]; [res] is a [uint8_t].  A read past
    the end of the modelled memory yields 0. *)
Definition xor_step (buf : list Z) (res : Z) (i : nat) : Z :=
  to_uint8 (Z.lxor res (nth i buf 0)).

(** [static uint8_t calculate_checksum(uint8_t *buf, int length)]:
    [res] starts at [0xef]; the loop [for (i = 0; i < length; i++)] runs
    [Z.to_nat length] times, hence not at all for [length <= 0]. *)
Definition calculate_checksum (buf : list Z) (length : Z) : Z :=
  fold_left (xor_step buf) (seq 0 (Z.to_nat length)) 239.

(** The specification's wording: fold from the seed, XOR each byte. *)
Definition xor_fold (bytes : list Z) : Z := fold_left Z.lxor bytes 239.

(** ** Receive buffer manager *)

(** [slip.h] is not among the sources: the SLIP decoder is an interface.
    [SLIP_recv_byte] returns the [int16_t] result together with the
    updated decoder state. *)
Class Slip := {
  slip_state_t : Type;
  slip_state_zero : slip_state_t;
  SLIP_recv_byte : Z -> slip_state_t -> Z * slip_state_t;
  SLIP_FINISHED_FRAME : Z
}.

(** [stub_flasher.h] is not among the sources: the block size is a
    parameter of the development. *)
Class BlockSize := { MAX_WRITE_BLOCK : Z }.

(** What [ub.reading_buf] and [ub.command] can point at. *)
Inductive buf_ptr : Type := NULL | BUF_A | BUF_B.

Global Instance buf_ptr_eq_dec : EqDecision buf_ptr.
Proof. solve_decision. Defined.

Section Receive.
Context `{Slip} `{BlockSize}.

(** [typedef struct { ... } uart_buf_t;] *)
Record uart_buf_t : Type := mk_ub {
  buf_a : list Z;
  buf_b : list Z;
  reading_buf : buf_ptr;
  read : Z;
  state : slip_state_t;
  command : buf_ptr
}.

Definition buf_size : Z := MAX_WRITE_BLOCK + 64.

(** The buffer a pointer designates. *)
Definition deref (ub : uart_buf_t) (p : buf_ptr) : option (list Z) :=
  match p with
  | NULL => None
  | BUF_A => Some (buf_a ub)
  | BUF_B => Some (buf_b ub)
  end.

(** [p[i] = v].  The store is defined only inside the array [p] points
    to; [None] stands for a write through a null pointer or past the
    end of the array. *)
Definition store (ub : uart_buf_t) (p : buf_ptr) (i v : Z) : option uart_buf_t :=
  match p with
  | NULL => None
  | BUF_A =>
      if decide (0 <= i < Z.of_nat (length (buf_a ub)))
      then Some (mk_ub (<[Z.to_nat i := v]> (buf_a ub)) (buf_b ub)
                       (reading_buf ub) (read ub) (state ub) (command ub))
      else None
  | BUF_B =>
      if decide (0 <= i < Z.of_nat (length (buf_b ub)))
      then Some (mk_ub (buf_a ub) (<[Z.to_nat i := v]> (buf_b ub))
                       (reading_buf ub) (read ub) (state ub) (command ub))
      else None
  end.

(** The [if (r == SLIP_FINISHED_FRAME)] block: publish and swap. *)
Definition finish_frame (ub : uart_buf_t) : uart_buf_t :=
  if decide (reading_buf ub = BUF_A)
  then mk_ub (buf_a ub) (buf_b ub) BUF_B 0 (state ub) BUF_A
  else mk_ub (buf_a ub) (buf_b ub) BUF_A 0 (state ub) BUF_B.

(** The [if (r >= 0)] block: returns the possibly overridden [r]. *)
Definition store_decoded (r : Z) (ub : uart_buf_t) : option (Z * uart_buf_t) :=
  if 0 <=? r then
    match store ub (reading_buf ub) (read ub) (to_uint8 r) with
    | None => None
    | Some ub1 =>
        let ub2 := mk_ub (buf_a ub1) (buf_b ub1) (reading_buf ub1)
                         (to_uint16 (read ub1 + 1)) (state ub1) (command ub1) in
        if read ub2 =? buf_size
        then Some (SLIP_FINISHED_FRAME, ub2)
        else Some (r, ub2)
    end
  else Some (r, ub).

(** [static void uart_isr_receive(char byte)] *)
Definition uart_isr_receive (byte : Z) (ub : uart_buf_t) : option uart_buf_t :=
  let '(r, st) := SLIP_recv_byte byte (state ub) in
  let ub0 := mk_ub (buf_a ub) (buf_b ub) (reading_buf ub) (read ub) st (command ub) in
  match store_decoded r ub0 with
  | None => None
  | Some (r', ub1) =>
      if r' =? SLIP_FINISHED_FRAME then Some (finish_frame ub1) else Some ub1
  end.

(** The inner loop of [uart_isr]: every byte of the FIFO goes through
    [uart_isr_receive]. *)
Fixpoint uart_isr_bytes (bytes : list Z) (ub : uart_buf_t) : option uart_buf_t :=
  match bytes with
  | [] => Some ub
  | b :: rest =>
      match uart_isr_receive b ub with
      | None => None
      | Some ub' => uart_isr_bytes rest ub'
      end
  end.

(** The consumer side, first lines of [cmd_loop]:
    [command = ub.command; ub.command = NULL;]. *)
Definition take_command (ub : uart_buf_t) : buf_ptr * uart_buf_t :=
  (command ub,
   mk_ub (buf_a ub) (buf_b ub) (reading_buf ub) (read ub) (state ub) NULL).

(** [ub] after [stub_main] has zeroed bss and set
    [ub.reading_buf = ub.buf_a]. *)
Definition ub_init : uart_buf_t :=
  mk_ub (repeat 0 (Z.to_nat buf_size)) (repeat 0 (Z.to_nat buf_size))
        BUF_A 0 slip_state_zero NULL.

(** The receive path keeps both arrays at their declared size, the
    active pointer on one of them and the offset inside it. *)
Definition ub_wf (ub : uart_buf_t) : Prop :=
  Z.of_nat (length (buf_a ub)) = buf_size /\
  Z.of_nat (length (buf_b ub)) = buf_size /\
  reading_buf ub <> NULL /\
  0 <= read ub < buf_size.

(** The ready pointer and the active receive target are different
    buffers. *)
Definition ready_not_active (ub : uart_buf_t) : Prop :=
  command ub <> reading_buf ub.

End Receive.

(** ** Command dispatcher *)

(** [esp_command]: the operation selector of a request.  The numeric codes
    live in [stub_commands.h], which is not among the sources; the
    constructors are the enumerators the dispatcher names, and
    [ESP_OTHER] is any other value of the [op] byte. *)
Inductive esp_command : Type :=
  | ESP_ERASE_FLASH | ESP_ERASE_REGION | ESP_SET_BAUD | ESP_READ_FLASH
  | ESP_FLASH_VERIFY_MD5 | ESP_FLASH_BEGIN | ESP_FLASH_DEFLATED_BEGIN
  | ESP_FLASH_DATA | ESP_FLASH_DEFLATED_DATA
  | ESP_FLASH_END | ESP_FLASH_DEFLATED_END
  | ESP_SPI_SET_PARAMS | ESP_SPI_ATTACH | ESP_WRITE_REG | ESP_READ_REG
  | ESP_OTHER (code : Z).

Global Instance esp_command_eq_dec : EqDecision esp_command.
Proof. solve_decision. Defined.

(** [esp_command_req_t]: [data_buf] is the memory that follows the
    header inside the receive buffer, stale bytes included. *)
Record esp_command_req_t : Type := mk_req {
  op : esp_command;
  data_len : Z;
  checksum : Z;
  data_buf : list Z
}.

(** [esp_command_response_t] *)
Record esp_command_response_t : Type := mk_resp {
  resp : Z;
  op_ret : esp_command;
  len_ret : Z;
  value : Z
}.

(** [esp_command_error]: [ESP_OK] is 0 (the dispatcher combines codes
    with C's [||], and the response reports 0 for success); the other
    enumerators are parameters, their values being in
    [stub_commands.h]. *)
Definition ESP_OK : Z := 0.

Class ErrorCodes := {
  ESP_BAD_DATA_LEN : Z;
  ESP_BAD_DATA_CHECKSUM : Z;
  ESP_NOT_IN_FLASH_MODE : Z;
  ESP_CMD_NOT_IMPLEMENTED : Z
}.

(** The ROM, flash and SPI collaborators ([rom_functions.h],
    [stub_write_flash.h], [soc_support.h]), over the state [FS] they own.
    A function returning a code returns it with the new state. *)
Class Collaborators := {
  FS : Type;
  REG_READ : Z -> FS -> Z;
  REG_WRITE : Z -> Z -> FS -> FS;
  SPIEraseChip : FS -> Z * FS;
  handle_flash_erase : Z -> Z -> FS -> Z * FS;
  handle_flash_get_md5sum : Z -> Z -> FS -> Z * FS;
  handle_flash_begin : Z -> Z -> FS -> Z * FS;
  handle_flash_deflated_begin : Z -> Z -> Z -> FS -> Z * FS;
  is_in_flash_mode : FS -> bool;
  get_flash_error : FS -> Z;
  handle_flash_end : FS -> Z * FS;
  handle_spi_set_params : list Z -> Z -> FS -> (Z * Z) * FS;
  handle_spi_attach : Z -> Z -> FS -> Z * FS;
  handle_flash_read : Z -> Z -> Z -> Z -> FS -> FS;
  handle_flash_data : list Z -> Z -> FS -> FS;
  handle_flash_deflated_data : list Z -> Z -> FS -> FS;
  ets_get_detected_xtal_freq : FS -> Z;
  uart_div_modify : Z -> Z -> FS -> FS
}.

(** Everything the dispatcher does to the outside, in program order. *)
Inductive event : Type :=
  | Ev_SLIP_send_frame_delimiter
  | Ev_SLIP_send_frame_data_buf (r : esp_command_response_t)
  | Ev_SLIP_send_frame_data (ch : Z)
  | Ev_REG_READ (addr : Z)
  | Ev_REG_WRITE (addr val : Z)
  | Ev_SPIEraseChip
  | Ev_handle_flash_erase (addr len : Z)
  | Ev_handle_flash_get_md5sum (addr len : Z)
  | Ev_handle_flash_begin (total_size offset : Z)
  | Ev_handle_flash_deflated_begin (uncompressed_size compressed_size offset : Z)
  | Ev_handle_flash_end
  | Ev_handle_spi_set_params (words : list Z)
  | Ev_handle_spi_attach (hspi_config_arg is_legacy : Z)
  | Ev_handle_flash_read (addr len block_size max_in_flight : Z)
  | Ev_handle_flash_data (data : list Z) (len : Z)
  | Ev_handle_flash_deflated_data (data : list Z) (len : Z)
  | Ev_ets_delay_us (us : Z)
  | Ev_uart_div_modify (uart_no divider : Z)
  | Ev_uart_tx_flush (uart_no : Z)
  | Ev_software_reset.

Global Instance esp_command_response_t_eq_dec : EqDecision esp_command_response_t.
Proof. solve_decision. Defined.

Global Instance event_eq_dec : EqDecision event.
Proof. solve_decision. Defined.

(** How one pass through the body of [while(1)] ends: back to waiting
    for a command, or in [software_reset()], which does not return. *)
Inductive outcome : Type := Next | Reset.

Section Dispatcher.
Context `{BlockSize} `{ErrorCodes} `{Collaborators}.

Record world : Type := mk_world {
  fs : FS;
  trace : list event
}.

(** State passing over [world]. *)
Definition M (A : Type) : Type := world -> A * world.

Definition ret {A : Type} (a : A) : M A := fun w => (a, w).

Definition bind {A B : Type} (m : M A) (k : A -> M B) : M B :=
  fun w => let (a, w') := m w in k a w'.

Notation "x <- m ;; k" := (bind m (fun x => k))
  (at level 100, m at next level, right associativity).
Notation "m ;; k" := (bind m (fun _ => k))
  (at level 100, right associativity).

Definition emit (e : event) : M unit :=
  fun w => (tt, mk_world (fs w) (trace w ++ [e])).

(** A collaborator call that returns a value. *)
Definition call {A : Type} (e : event) (f : FS -> A * FS) : M A :=
  fun w => let (a, s) := f (fs w) in (a, mk_world s (trace w ++ [e])).

(** A collaborator call returning [void]. *)
Definition call_void (e : event) (f : FS -> FS) : M unit :=
  fun w => (tt, mk_world (f (fs w)) (trace w ++ [e])).

(** A query that leaves the state alone. *)
Definition query {A : Type} (f : FS -> A) : M A :=
  fun w => (f (fs w), w).

(** [static uint32_t baud_rate_to_divider(uint32_t baud_rate)], ESP32
    branch; [xtal] is the value of [ets_get_detected_xtal_freq()].  C
    leaves the division by zero undefined, [Z.div] gives 0. *)
Definition baud_rate_to_divider (xtal baud_rate : Z) : Z :=
  let master_freq := to_uint32 (Z.shiftl xtal 4) in
  let master_freq := to_uint32 (master_freq + baud_rate / 2) in
  master_freq / baud_rate.

(** [static esp_command_error verify_data_len(esp_command_req_t *command, uint8_t len)] *)
Definition verify_data_len (command : esp_command_req_t) (len : Z) : Z :=
  if data_len command =? len then ESP_OK else ESP_BAD_DATA_LEN.

(** [data_words[i]] with [data_words = (uint32_t * )command->data_buf],
    little endian. *)
Definition data_words (command : esp_command_req_t) (i : nat) : Z :=
  let b k := nth (4 * i + k)%nat (data_buf command) 0 in
  Z.lor (b 0%nat)
    (Z.lor (Z.shiftl (b 1%nat) 8)
       (Z.lor (Z.shiftl (b 2%nat) 16) (Z.shiftl (b 3%nat) 24))).

(** C's [a || b] on error codes: [b] is evaluated only when [a] is 0,
    and the value of the expression is 0 or 1. *)
Definition c_lor (a : Z) (b : M Z) : M Z :=
  if a =? 0 then (r <- b ;; ret (if r =? 0 then 0 else 1)) else ret 1.

(** The [ESP_FLASH_DATA] / [ESP_FLASH_DEFLATED_DATA] case of the first
    [switch]. *)
Definition check_flash_data (command : esp_command_req_t) : M Z :=
  in_flash <- query is_in_flash_mode ;;
  if (in_flash : bool) then
    error <- query get_flash_error ;;
    let payload_len := data_len command - 16 in
    let error :=
      if data_words command 0 =? to_uint32 payload_len
      then error else ESP_BAD_DATA_LEN in
    let data_checksum :=
      calculate_checksum (drop 16 (data_buf command)) payload_len in
    let error :=
      if data_checksum =? checksum command
      then error else ESP_BAD_DATA_CHECKSUM in
    ret error
  else ret ESP_NOT_IN_FLASH_MODE.

(** First stage of command processing: the first [switch], returning
    [(error, status)]. *)
Definition pre_action (command : esp_command_req_t) : M (Z * Z) :=
  let w := data_words command in
  match op command with
  | ESP_ERASE_FLASH =>
      error <- c_lor (verify_data_len command 0) (call Ev_SPIEraseChip SPIEraseChip) ;;
      ret (error, 0)
  | ESP_ERASE_REGION =>
      error <- c_lor (verify_data_len command 8)
                 (call (Ev_handle_flash_erase (w 0%nat) (w 1%nat))
                       (handle_flash_erase (w 0%nat) (w 1%nat))) ;;
      ret (error, 0)
  | ESP_SET_BAUD => ret (verify_data_len command 8, 0)
  | ESP_READ_FLASH => ret (verify_data_len command 16, 0)
  | ESP_FLASH_VERIFY_MD5 =>
      error <- c_lor (verify_data_len command 16)
                 (call (Ev_handle_flash_get_md5sum (w 0%nat) (w 1%nat))
                       (handle_flash_get_md5sum (w 0%nat) (w 1%nat))) ;;
      ret (error, 0)
  | ESP_FLASH_BEGIN =>
      let total := to_uint32 (w 1%nat * w 2%nat) in
      error <- c_lor (verify_data_len command 16)
                 (call (Ev_handle_flash_begin total (w 3%nat))
                       (handle_flash_begin total (w 3%nat))) ;;
      ret (error, 0)
  | ESP_FLASH_DEFLATED_BEGIN =>
      let total := to_uint32 (w 1%nat * w 2%nat) in
      error <- c_lor (verify_data_len command 16)
                 (call (Ev_handle_flash_deflated_begin (w 0%nat) total (w 3%nat))
                       (handle_flash_deflated_begin (w 0%nat) total (w 3%nat))) ;;
      ret (error, 0)
  | ESP_FLASH_DATA | ESP_FLASH_DEFLATED_DATA =>
      error <- check_flash_data command ;;
      ret (error, 0)
  | ESP_FLASH_END | ESP_FLASH_DEFLATED_END =>
      error <- call Ev_handle_flash_end handle_flash_end ;;
      ret (error, 0)
  | ESP_SPI_SET_PARAMS =>
      let a := verify_data_len command 24 in
      if a =? 0 then
        rs <- call (Ev_handle_spi_set_params (map w (seq 0 6)))
                (handle_spi_set_params (map w (seq 0 6)) 0) ;;
        ret (if fst rs =? 0 then 0 else 1, snd rs)
      else ret (1, 0)
  | ESP_SPI_ATTACH =>
      error <- c_lor (verify_data_len command 8)
                 (call (Ev_handle_spi_attach (w 0%nat) (Z.land (w 1%nat) 255))
                       (handle_spi_attach (w 0%nat) (Z.land (w 1%nat) 255))) ;;
      ret (error, 0)
  | ESP_WRITE_REG =>
      let error := verify_data_len command 16 in
      (if error =? ESP_OK
       then call_void (Ev_REG_WRITE (w 0%nat) (w 1%nat)) (REG_WRITE (w 0%nat) (w 1%nat))
       else ret tt) ;;
      ret (error, 0)
  | ESP_READ_REG => ret (verify_data_len command 4, 0)
  | ESP_OTHER _ => ret (ESP_CMD_NOT_IMPLEMENTED, 0)
  end.

(** The second [switch], entered when [error == ESP_OK]. *)
Definition post_action (command : esp_command_req_t) : M outcome :=
  let w := data_words command in
  match op command with
  | ESP_SET_BAUD =>
      emit (Ev_ets_delay_us 10000) ;;
      xtal <- query ets_get_detected_xtal_freq ;;
      let d := baud_rate_to_divider xtal (w 0%nat) in
      call_void (Ev_uart_div_modify 0 d) (uart_div_modify 0 d) ;;
      emit (Ev_ets_delay_us 1000) ;;
      ret Next
  | ESP_READ_FLASH =>
      call_void (Ev_handle_flash_read (w 0%nat) (w 1%nat) (w 2%nat) (w 3%nat))
                (handle_flash_read (w 0%nat) (w 1%nat) (w 2%nat) (w 3%nat)) ;;
      ret Next
  | ESP_FLASH_DATA =>
      call_void (Ev_handle_flash_data (drop 16 (data_buf command)) (data_len command - 16))
                (handle_flash_data (drop 16 (data_buf command)) (data_len command - 16)) ;;
      ret Next
  | ESP_FLASH_DEFLATED_DATA =>
      call_void (Ev_handle_flash_deflated_data (drop 16 (data_buf command)) (data_len command - 16))
                (handle_flash_deflated_data (drop 16 (data_buf command)) (data_len command - 16)) ;;
      ret Next
  | ESP_FLASH_END =>
      if w 0%nat =? 0 then
        emit (Ev_uart_tx_flush 0) ;;
        emit Ev_software_reset ;;
        ret Reset
      else ret Next
  | _ => ret Next
  end.

(** The response header; [ESP_READ_REG] with [data_len == 4] reads the
    register into [value] first. *)
Definition make_response (command : esp_command_req_t) : M esp_command_response_t :=
  v <- (if decide (op command = ESP_READ_REG /\ data_len command = 4)
        then (emit (Ev_REG_READ (data_words command 0)) ;;
              query (REG_READ (data_words command 0)))
        else ret 0) ;;
  ret (mk_resp 1 (op command) 0 v).

(** One pass through the body of [while(1)] in [cmd_loop], for the
    command taken from [ub.command]. *)
Definition cmd_loop_body (command : esp_command_req_t) : M outcome :=
  r <- make_response command ;;
  emit Ev_SLIP_send_frame_delimiter ;;
  emit (Ev_SLIP_send_frame_data_buf r) ;;
  if data_len command >? MAX_WRITE_BLOCK + 16 then
    emit (Ev_SLIP_send_frame_data ESP_BAD_DATA_LEN) ;;
    emit (Ev_SLIP_send_frame_data 238) ;;
    emit Ev_SLIP_send_frame_delimiter ;;
    ret Next
  else
    es <- pre_action command ;;
    let error := fst es in
    let status := snd es in
    emit (Ev_SLIP_send_frame_data error) ;;
    emit (Ev_SLIP_send_frame_data status) ;;
    emit Ev_SLIP_send_frame_delimiter ;;
    if error =? ESP_OK then post_action command else ret Next.

(** [cmd_loop] over the commands the receive path hands over, in order:
    it stops for good at [software_reset()], and waits when no command is
    left. *)
Fixpoint cmd_loop (commands : list esp_command_req_t) : M outcome :=
  match commands with
  | [] => ret Next
  | c :: rest =>
      o <- cmd_loop_body c ;;
      match o with
      | Reset => ret Reset
      | Next => cmd_loop rest
      end
  end.

(** Run a computation from a state with an empty trace. *)
Definition run {A : Type} (m : M A) (s : FS) : A * world := m (mk_world s []).

End Dispatcher.

(** ** The specification's dispatch table *)

(** Required payload length per op, as the dispatch table of the
    specification lists it ([None]: variable length or unknown op). *)
Definition required_len (o : esp_command) : option Z :=
  match o with
  | ESP_ERASE_FLASH => Some 0
  | ESP_ERASE_REGION => Some 8
  | ESP_SET_BAUD => Some 8
  | ESP_READ_FLASH => Some 16
  | ESP_FLASH_VERIFY_MD5 => Some 16
  | ESP_FLASH_BEGIN => Some 16
  | ESP_FLASH_DEFLATED_BEGIN => Some 16
  | ESP_SPI_SET_PARAMS => Some 24
  | ESP_SPI_ATTACH => Some 8
  | ESP_WRITE_REG => Some 16
  | ESP_READ_REG => Some 4
  | _ => None
  end.

(** The ops whose first-stage case is written [verify_data_len(..) || f(..)]. *)
Definition uses_logical_or (o : esp_command) : bool :=
  match o with
  | ESP_ERASE_FLASH | ESP_ERASE_REGION | ESP_FLASH_VERIFY_MD5
  | ESP_FLASH_BEGIN | ESP_FLASH_DEFLATED_BEGIN
  | ESP_SPI_SET_PARAMS | ESP_SPI_ATTACH => true
  | _ => false
  end.

(** The error code of a response: the first byte passed to
    [SLIP_send_frame_data]. *)
Fixpoint response_error (t : list event) : option Z :=
  match t with
  | [] => None
  | Ev_SLIP_send_frame_data ch :: _ => Some ch
  | _ :: rest => response_error rest
  end.

(** The events before the error/status pair: frame start and header. *)
Definition header_events (r : esp_command_response_t) : list event :=
  [Ev_SLIP_send_frame_delimiter; Ev_SLIP_send_frame_data_buf r].

(** The error/status pair and the end of the frame. *)
Definition status_events (error status : Z) : list event :=
  [Ev_SLIP_send_frame_data error; Ev_SLIP_send_frame_data status;
   Ev_SLIP_send_frame_delimiter].

(** Whether a call of [uart_isr_receive] goes through the
    [if (r == SLIP_FINISHED_FRAME)] block. *)
Definition completes_frame `{Slip} `{BlockSize}
    (byte : Z) (ub : uart_buf_t) : bool :=
  let '(r, st) := SLIP_recv_byte byte (state ub) in
  let ub0 := mk_ub (buf_a ub) (buf_b ub) (reading_buf ub) (read ub) st (command ub) in
  match store_decoded r ub0 with
  | None => false
  | Some (r', _) => r' =? SLIP_FINISHED_FRAME
  end.

(** The byte at offset [i] of the buffer [p] points to. *)
Definition byte_at `{Slip} `{BlockSize}
    (ub : uart_buf_t) (p : buf_ptr) (i : Z) : option Z :=
  match deref ub p with
  | None => None
  | Some l => l !! Z.to_nat i
  end.

(** The other physical buffer. *)
Definition other_buf (p : buf_ptr) : buf_ptr :=
  match p with
  | BUF_A => BUF_B
  | _ => BUF_A
  end.

(** ** Concrete instances, for running the model *)

(** Modelled from the spec: the framing codec of [slip.c] is not among
    the sources.  Section 4.1 describes a decoder with the states Normal
    and EscapePending; the delimiter ends a frame, the escape byte emits
    nothing, and the byte after it is mapped back.  The byte values are
    those of SLIP (END 0xC0, ESC 0xDB, ESC_END 0xDC, ESC_ESC 0xDD); -2
    signals a finished frame and -1 no byte. *)
Definition slip_recv_model (byte : Z) (esc : bool) : Z * bool :=
  if esc then
    ((if byte =? 220 then 192 else if byte =? 221 then 219 else byte), false)
  else if byte =? 192 then (-2, false)
  else if byte =? 219 then (-1, true)
  else (byte, false).

Definition slip_model : Slip :=
  {| slip_state_t := bool;
     slip_state_zero := false;
     SLIP_recv_byte := slip_recv_model;
     SLIP_FINISHED_FRAME := -2 |}.

(** A small block size, so that the buffers hold 66 bytes. *)
Definition small_block : BlockSize := {| MAX_WRITE_BLOCK := 2 |}.

(** The block size of the esptool stub. *)
Definition stub_block : BlockSize := {| MAX_WRITE_BLOCK := 8192 |}.

(** The error codes of the esptool protocol. *)
Definition esptool_codes : ErrorCodes :=
  {| ESP_BAD_DATA_LEN := 192;
     ESP_BAD_DATA_CHECKSUM := 193;
     ESP_NOT_IN_FLASH_MODE := 198;
     ESP_CMD_NOT_IMPLEMENTED := 255 |}.

(** State of the mock collaborators: the flash session flags and what
    [handle_flash_end] will answer. *)
Record mock_state : Type := mk_mock {
  m_in_flash_mode : bool;
  m_flash_error : Z;
  m_end_result : Z
}.

(** Mock collaborators: every operation succeeds and leaves the state
    alone; the register at 0x3FF00000 reads 0xDEADBEEF. *)
Definition mock : Collaborators :=
  {| FS := mock_state;
     REG_READ := fun addr _ => if addr =? 1072693248 then 3735928559 else 0;
     REG_WRITE := fun _ _ s => s;
     SPIEraseChip := fun s => (0, s);
     handle_flash_erase := fun _ _ s => (0, s);
     handle_flash_get_md5sum := fun _ _ s => (0, s);
     handle_flash_begin := fun _ _ s => (0, mk_mock true 0 (m_end_result s));
     handle_flash_deflated_begin := fun _ _ _ s => (0, mk_mock true 0 (m_end_result s));
     is_in_flash_mode := m_in_flash_mode;
     get_flash_error := m_flash_error;
     handle_flash_end := fun s => (m_end_result s, mk_mock false (m_flash_error s) (m_end_result s));
     handle_spi_set_params := fun _ st s => ((0, st), s);
     handle_spi_attach := fun _ _ s => (0, s);
     handle_flash_read := fun _ _ _ _ s => s;
     handle_flash_data := fun _ _ s => s;
     handle_flash_deflated_data := fun _ _ s => s;
     ets_get_detected_xtal_freq := fun _ => 40000000;
     uart_div_modify := fun _ _ s => s |}.

(** The little-endian bytes of a 32-bit word. *)
Definition le32 (x : Z) : list Z :=
  [x mod 256; (x / 256) mod 256; (x / 65536) mod 256; (x / 16777216) mod 256].

(** [READ_REG(addr = 0x3FF00000)]. *)
Definition read_reg_cmd : esp_command_req_t :=
  mk_req ESP_READ_REG 4 0 (le32 1072693248).

(** [ERASE_REGION] one byte short: 7 bytes instead of 8. *)
Definition erase_region_short : esp_command_req_t :=
  mk_req ESP_ERASE_REGION 7 0 (le32 4096 ++ le32 4096).

(** A data block of one byte, 0xAA, behind its 16-byte header
    [length, seq, 0, 0]; the header checksum is [0xEF xor 0xAA]. *)
Definition data_block (o : esp_command) (len_word seq_word cks : Z) : esp_command_req_t :=
  mk_req o 17 cks (le32 len_word ++ le32 seq_word ++ le32 0 ++ le32 0 ++ [170]).

(** [FLASH_END] / [FLASH_DEFLATED_END] with [arg0 = 0]. *)
Definition end_cmd (o : esp_command) : esp_command_req_t :=
  mk_req o 4 0 (le32 0).

(** A command longer than the stub accepts. *)
Definition oversize_cmd : esp_command_req_t :=
  mk_req ESP_READ_REG 8209 0 (le32 1072693248).

(** The mock inside a write session, and outside of one. *)
Definition in_session : mock_state := mk_mock true 0 0.
Definition idle : mock_state := mk_mock false 0 0.

(** One pass of the dispatcher on the mock, with the stub's block size
    and the esptool error codes. *)
Definition run_stub (c : esp_command_req_t) (s : mock_state) : outcome * @world mock :=
  @run mock outcome (@cmd_loop_body stub_block esptool_codes mock c) s.

(** The receive path on the model decoder with 66-byte buffers. *)
Definition receive_small (bytes : list Z) : option (@uart_buf_t slip_model) :=
  @uart_isr_bytes slip_model small_block bytes (@ub_init slip_model small_block).

(** ** The receive interrupt *)

(** The UART registers [uart_isr] touches through [READ_PERI_REG] and
    [WRITE_PERI_REG] ([soc_support.h] is not among the sources).  A read
    of a peripheral register may change the hardware (reading the FIFO
    register pops a byte), so a read returns the new hardware state. *)
Class UartRegs := {
  HW : Type;
  READ_UART_INT_ST : HW -> Z * HW;
  READ_UART_STATUS : HW -> Z * HW;
  READ_UART_FIFO : HW -> Z * HW;
  WRITE_UART_INT_CLR : Z -> HW -> HW
}.

Section Isr.
Context `{Slip} `{BlockSize} `{UartRegs}.

(** How a run of [uart_isr] ends: it returns, it stores outside a
    buffer, or the outer [while (1)] is still going when the fuel is
    used up. *)
Inductive isr_result : Type :=
  | Isr_done (hw : HW) (ub : uart_buf_t)
  | Isr_fault
  | Isr_spinning.

(** [while (fifo_len-- > 0) { byte = READ_PERI_REG(UART_FIFO(0)) & 0xff;
    uart_isr_receive(byte); }], entered with [fifo_len = n]. *)
Fixpoint drain_fifo (n : nat) (hw : HW) (ub : uart_buf_t) : option (HW * uart_buf_t) :=
  match n with
  | O => Some (hw, ub)
  | S n' =>
      let (v, hw') := READ_UART_FIFO hw in
      match uart_isr_receive (Z.land v 255) ub with
      | None => None
      | Some ub' => drain_fifo n' hw' ub'
      end
  end.

(** The outer [while (1)]: one unit of fuel per reading of the status
    register. *)
Fixpoint uart_isr_loop (fuel : nat) (hw : HW) (ub : uart_buf_t) : isr_result :=
  match fuel with
  | O => Isr_spinning
  | S fuel' =>
      let (st, hw1) := READ_UART_STATUS hw in
      let fifo_len := Z.land st 255 in
      if fifo_len =? 0 then Isr_done hw1 ub
      else
        match drain_fifo (Z.to_nat fifo_len) hw1 ub with
        | None => Isr_fault
        | Some (hw2, ub2) => uart_isr_loop fuel' hw2 ub2
        end
  end.

(** [void uart_isr(void *arg)] *)
Definition uart_isr (fuel : nat) (hw : HW) (ub : uart_buf_t) : isr_result :=
  let (int_st, hw0) := READ_UART_INT_ST hw in
  match uart_isr_loop fuel hw0 ub with
  | Isr_done hw1 ub1 => Isr_done (WRITE_UART_INT_CLR int_st hw1) ub1
  | r => r
  end.

End Isr.

(** ** Observations on the decoder and on traces *)

Section DecoderRuns.
Context `{Slip}.

(** The bytes the handler stores for a run of incoming bytes: the
    non-negative results of [SLIP_recv_byte], cast to [uint8_t]. *)
Fixpoint decoded_bytes (bytes : list Z) (st : slip_state_t) : list Z :=
  match bytes with
  | [] => []
  | b :: rest =>
      let (r, st') := SLIP_recv_byte b st in
      if 0 <=? r then to_uint8 r :: decoded_bytes rest st'
      else decoded_bytes rest st'
  end.

(** No result of the decoder on this run is [SLIP_FINISHED_FRAME]. *)
Fixpoint no_frame_end (bytes : list Z) (st : slip_state_t) : bool :=
  match bytes with
  | [] => true
  | b :: rest =>
      let (r, st') := SLIP_recv_byte b st in
      negb (r =? SLIP_FINISHED_FRAME) && no_frame_end rest st'
  end.

(** The decoder state after a run of incoming bytes. *)
Fixpoint slip_state_after (bytes : list Z) (st : slip_state_t) : slip_state_t :=
  match bytes with
  | [] => st
  | b :: rest => slip_state_after rest (snd (SLIP_recv_byte b st))
  end.

End DecoderRuns.

(** The events that put bytes of the response frame on the wire. *)
Definition is_slip_event (e : event) : bool :=
  match e with
  | Ev_SLIP_send_frame_delimiter
  | Ev_SLIP_send_frame_data_buf _
  | Ev_SLIP_send_frame_data _ => true
  | _ => false
  end.

Fixpoint slip_events (t : list event) : list event :=
  match t with
  | [] => []
  | e :: rest =>
      if is_slip_event e then e :: slip_events rest else slip_events rest
  end.

(** The calls made by the second [switch] of [cmd_loop]. *)
Definition is_post_event (e : event) : bool :=
  match e with
  | Ev_ets_delay_us _ | Ev_uart_div_modify _ _ | Ev_handle_flash_read _ _ _ _
  | Ev_handle_flash_data _ _ | Ev_handle_flash_deflated_data _ _
  | Ev_uart_tx_flush _ | Ev_software_reset => true
  | _ => false
  end.


(** How many times [software_reset()] was called. *)
Fixpoint count_resets (t : list event) : nat :=
  match t with
  | [] => O
  | Ev_software_reset :: rest => S (count_resets rest)
  | _ :: rest => count_resets rest
  end.

(** ** Further concrete instances *)

(** A UART for running the interrupt handler: the hardware state is the
    list of pending bytes, the status register reports how many there
    are, and a read of the FIFO register pops one. *)
Definition fifo_uart : UartRegs :=
  {| HW := list Z;
     READ_UART_INT_ST := fun hw => (1, hw);
     READ_UART_STATUS := fun hw => (Z.of_nat (length hw), hw);
     READ_UART_FIFO := fun hw => (hd 0 hw, tl hw);
     WRITE_UART_INT_CLR := fun _ hw => hw |}.

(** The mock with a flash erase that fails with the code 0xC4. *)
Definition failing_erase_mock : Collaborators :=
  {| FS := mock_state;
     REG_READ := @REG_READ mock;
     REG_WRITE := @REG_WRITE mock;
     SPIEraseChip := fun s => (196, s);
     handle_flash_erase := fun _ _ s => (196, s);
     handle_flash_get_md5sum := @handle_flash_get_md5sum mock;
     handle_flash_begin := @handle_flash_begin mock;
     handle_flash_deflated_begin := @handle_flash_deflated_begin mock;
     is_in_flash_mode := @is_in_flash_mode mock;
     get_flash_error := @get_flash_error mock;
     handle_flash_end := @handle_flash_end mock;
     handle_spi_set_params := @handle_spi_set_params mock;
     handle_spi_attach := @handle_spi_attach mock;
     handle_flash_read := @handle_flash_read mock;
     handle_flash_data := @handle_flash_data mock;
     handle_flash_deflated_data := @handle_flash_deflated_data mock;
     ets_get_detected_xtal_freq := @ets_get_detected_xtal_freq mock;
     uart_div_modify := @uart_div_modify mock |}.

(** * Properties *)

(** ** Checksum *)

Lemma lxor_is_byte (a b : Z) : is_byte a -> is_byte b -> is_byte (Z.lxor a b).
Proof.
  unfold is_byte. intros Ha Hb.
  assert (Hnn : 0 <= Z.lxor a b) by (apply Z.lxor_nonneg; lia).
  split; [exact Hnn|].
  destruct (Z.eq_dec (Z.lxor a b) 0) as [->|Hne]; [lia|].
  change 256 with (2 ^ 8). apply Z.log2_lt_pow2; [lia|].
  pose proof (Z.log2_lxor a b ltac:(lia) ltac:(lia)) as Hl.
  assert (Z.log2 a < 8).
  { destruct (Z.eq_dec a 0) as [->|]; [simpl; lia|].
    apply Z.log2_lt_pow2; lia. }
  assert (Z.log2 b < 8).
  { destruct (Z.eq_dec b 0) as [->|]; [simpl; lia|].
    apply Z.log2_lt_pow2; lia. }
  lia.
Qed.

Lemma fold_lxor_is_byte (l : list Z) (a : Z) :
  Forall is_byte l -> is_byte a -> is_byte (fold_left Z.lxor l a).
Proof.
  intros Hl. revert a.
  induction Hl as [|b l Hb _ IH]; intros a Ha; simpl; [exact Ha|].
  apply IH. now apply lxor_is_byte.
Qed.

(** The loop over indices is the fold over the first [n] bytes. *)
Lemma checksum_loop_fold (buf : list Z) (n : nat) (a : Z) :
  Forall is_byte buf -> is_byte a -> (n <= length buf)%nat ->
  fold_left (xor_step buf) (seq 0 n) a = fold_left Z.lxor (take n buf) a.
Proof.
  intros Hb Ha. induction n as [|n IH]; intros Hn.
  - reflexivity.
  - rewrite seq_S, fold_left_app. simpl.
    destruct (lookup_lt_is_Some_2 buf n ltac:(lia)) as [x Hx].
    rewrite (take_S_r _ _ _ Hx), fold_left_app. simpl.
    rewrite IH by lia. unfold xor_step.
    rewrite (nth_lookup_Some _ _ _ _ Hx).
    unfold to_uint8. apply Z.mod_small.
    apply lxor_is_byte.
    + apply fold_lxor_is_byte; [|exact Ha].
      apply Forall_take. exact Hb.
    + eapply Forall_lookup_1; eauto.
Qed.

Lemma fold_lxor_seed (l : list Z) (a : Z) :
  fold_left Z.lxor l a = Z.lxor a (fold_left Z.lxor l 0).
Proof.
  revert a. induction l as [|b l IH]; intros a; cbn [fold_left].
  - now rewrite Z.lxor_0_r.
  - rewrite (IH (Z.lxor a b)), (IH (Z.lxor 0 b)), Z.lxor_0_l, Z.lxor_assoc.
    reflexivity.
Qed.

Lemma lxor_cancel_r (x y c : Z) : Z.lxor x c = Z.lxor y c -> x = y.
Proof.
  intros E. apply (f_equal (fun z => Z.lxor z c)) in E.
  now rewrite !Z.lxor_assoc, Z.lxor_nilpotent, !Z.lxor_0_r in E.
Qed.

Lemma lxor_cancel_l (x y c : Z) : Z.lxor c x = Z.lxor c y -> x = y.
Proof. rewrite !(Z.lxor_comm c). apply lxor_cancel_r. Qed.

(** Replacing one byte of the folded sequence changes the fold. *)
Lemma xor_fold_insert_neq (l : list Z) (i : nat) (b b' a : Z) :
  l !! i = Some b -> b <> b' ->
  fold_left Z.lxor (<[i := b']> l) a <> fold_left Z.lxor l a.
Proof.
  intros Hi Hne E.
  assert (Hlen : (i < length l)%nat) by (eapply lookup_lt_Some; eauto).
  rewrite insert_take_drop in E by exact Hlen.
  rewrite <- (take_drop_middle l i b Hi) in E at 3.
  rewrite !fold_left_app in E. simpl in E.
  rewrite (fold_lxor_seed _ (Z.lxor _ b')) in E.
  rewrite (fold_lxor_seed _ (Z.lxor _ b)) in E.
  apply lxor_cancel_r, lxor_cancel_l in E. congruence.
Qed.

(** C6: [calculate_checksum] is the XOR fold of the bytes from the seed
    0xEF, equal inputs give equal results, and replacing the byte at one
    position below [length] by a different byte changes the result. *)
Theorem calculate_checksum_single_byte_change
    (buf : list Z) (n : Z) (i : nat) (b' : Z) :
  Forall is_byte buf -> is_byte b' ->
  0 <= n <= Z.of_nat (length buf) -> Z.of_nat i < n ->
  buf !! i <> Some b' ->
  calculate_checksum buf n = xor_fold (take (Z.to_nat n) buf) /\
  (forall buf2 n2, buf2 = buf -> n2 = n ->
     calculate_checksum buf2 n2 = calculate_checksum buf n) /\
  calculate_checksum (<[i := b']> buf) n <> calculate_checksum buf n.
Proof.
  intros Hb Hb' Hn Hi Hne.
  assert (Hseed : is_byte 239) by (unfold is_byte; lia).
  assert (Hfold : forall l, Forall is_byte l -> length l = length buf ->
            calculate_checksum l n = xor_fold (take (Z.to_nat n) l)).
  { intros l Hl Hlen. unfold calculate_checksum, xor_fold.
    apply checksum_loop_fold; [exact Hl|exact Hseed|lia]. }
  split; [apply Hfold; [exact Hb|reflexivity]|].
  split; [intros buf2 n2 -> ->; reflexivity|].
  rewrite (Hfold buf Hb eq_refl).
  rewrite (Hfold (<[i := b']> buf)).
  - destruct (lookup_lt_is_Some_2 buf i ltac:(lia)) as [b Hbi].
    unfold xor_fold. rewrite take_insert_lt by lia.
    apply (xor_fold_insert_neq _ _ b).
    + rewrite lookup_take_lt by lia. exact Hbi.
    + congruence.
  - apply Forall_insert; assumption.
  - apply length_insert.
Qed.

(** ** Receive buffer manager *)

Section ReceiveFacts.
Context `{Slip} `{BlockSize}.

Lemma ub_init_wf : 0 <= MAX_WRITE_BLOCK -> ub_wf ub_init.
Proof.
  intros Hm. unfold ub_wf, ub_init, buf_size. simpl.
  rewrite repeat_length. repeat split; try lia. discriminate.
Qed.

(** The consumer only clears the ready pointer. *)
Lemma take_command_wf (ub : uart_buf_t) :
  ub_wf (snd (take_command ub)) <-> ub_wf ub.
Proof. unfold ub_wf, take_command. simpl. reflexivity. Qed.

(** One call of the handler from a well-formed [ub]: it is defined, and
    what it does to the buffers, the offset and the two pointers. *)
Lemma uart_isr_receive_step (byte : Z) (ub : uart_buf_t) :
  0 <= MAX_WRITE_BLOCK -> MAX_WRITE_BLOCK + 64 < 65536 -> ub_wf ub ->
  exists ub', uart_isr_receive byte ub = Some ub' /\ ub_wf ub' /\
    (0 <= fst (SLIP_recv_byte byte (state ub)) ->
       byte_at ub' (reading_buf ub) (read ub)
         = Some (to_uint8 (fst (SLIP_recv_byte byte (state ub)))) /\
       (read ub + 1 = buf_size -> completes_frame byte ub = true)) /\
    (completes_frame byte ub = true ->
       command ub' = reading_buf ub /\
       reading_buf ub' = other_buf (reading_buf ub) /\ read ub' = 0) /\
    (completes_frame byte ub = false ->
       command ub' = command ub /\ reading_buf ub' = reading_buf ub /\
       (0 <= fst (SLIP_recv_byte byte (state ub)) -> read ub' = read ub + 1)).
Proof.
  intros Hm Hcap (Ha & Hb & Hp & Hr).
  unfold uart_isr_receive, completes_frame, store_decoded, byte_at.
  destruct (SLIP_recv_byte byte (state ub)) as [r st]. simpl fst.
  unfold buf_size in *.
  assert (Hu : to_uint16 (read ub + 1) = read ub + 1)
    by (unfold to_uint16; apply Z.mod_small; lia).
  destruct (0 <=? r) eqn:Hr0.
  - destruct ub as [a b p rd s c]; simpl in *.
    destruct p; [congruence| |]; simpl;
      (destruct (decide _) as [Hin|Hout]; [|exfalso; lia]); simpl;
      rewrite Hu;
      destruct (Z.eqb_spec (rd + 1) (MAX_WRITE_BLOCK + 64)) as [Hfull|Hfull];
      rewrite ?Z.eqb_refl;
      try destruct (r =? SLIP_FINISHED_FRAME) eqn:Hfin;
      unfold finish_frame; simpl;
      eexists; (split; [reflexivity|]);
      unfold ub_wf, buf_size; simpl; rewrite ?length_insert;
      (repeat split); intros; try congruence; try lia;
      try (apply list_lookup_insert_eq; lia).
  - destruct ub as [a b p rd s c]; simpl in *.
    destruct (r =? SLIP_FINISHED_FRAME) eqn:Hfin;
      unfold finish_frame; simpl.
    + destruct p; [congruence| |]; simpl;
        eexists; (split; [reflexivity|]);
        unfold ub_wf, buf_size; simpl;
        (repeat split); intros; try congruence; lia.
    + eexists; (split; [reflexivity|]);
        unfold ub_wf, buf_size; simpl;
        (repeat split); intros; try congruence; lia.
Qed.

(** The handler is defined on every byte sequence and keeps [ub]
    well formed. *)
Lemma uart_isr_bytes_wf (bytes : list Z) (ub : uart_buf_t) :
  0 <= MAX_WRITE_BLOCK -> MAX_WRITE_BLOCK + 64 < 65536 -> ub_wf ub ->
  exists ub', uart_isr_bytes bytes ub = Some ub' /\ ub_wf ub'.
Proof.
  intros Hm Hcap. revert ub.
  induction bytes as [|b rest IH]; intros ub Hwf; simpl.
  - eauto.
  - destruct (uart_isr_receive_step b ub Hm Hcap Hwf) as (ub1 & -> & Hwf1 & _).
    apply IH. exact Hwf1.
Qed.

(** C8: on every sequence of incoming bytes the handler never stores
    outside the active buffer: every store succeeds, at an offset below
    [MAX_WRITE_BLOCK+64]; and a store that brings the offset to the
    capacity completes the frame, publishing the buffer and resetting
    the offset to 0. *)
Theorem uart_isr_receive_in_bounds (bytes : list Z) :
  0 <= MAX_WRITE_BLOCK -> MAX_WRITE_BLOCK + 64 < 65536 ->
  (exists ub', uart_isr_bytes bytes ub_init = Some ub' /\ ub_wf ub') /\
  (forall (ub : uart_buf_t) (byte : Z), ub_wf ub ->
     exists ub', uart_isr_receive byte ub = Some ub' /\
       0 <= read ub' < buf_size /\
       (0 <= fst (SLIP_recv_byte byte (state ub)) ->
          0 <= read ub < buf_size /\
          byte_at ub' (reading_buf ub) (read ub)
            = Some (to_uint8 (fst (SLIP_recv_byte byte (state ub)))) /\
          (read ub + 1 = buf_size ->
             completes_frame byte ub = true /\
             command ub' = reading_buf ub /\
             reading_buf ub' = other_buf (reading_buf ub) /\
             read ub' = 0))).
Proof.
  intros Hm Hcap. split.
  - apply uart_isr_bytes_wf; [exact Hm|exact Hcap|].
    apply ub_init_wf. exact Hm.
  - intros ub byte Hwf.
    destruct (uart_isr_receive_step byte ub Hm Hcap Hwf)
      as (ub' & Hrun & Hwf' & Hstore & Hdone & _).
    exists ub'. split; [exact Hrun|].
    split; [apply Hwf'|].
    intros Hr. destruct (Hstore Hr) as [Hat Hfull].
    split; [apply Hwf|]. split; [exact Hat|].
    intros Hlast. pose proof (Hfull Hlast) as Hc.
    split; [exact Hc|]. apply Hdone. exact Hc.
Qed.

(** What a call does to the two pointers and to the buffer that was
    published, whatever the sizes. *)
Lemma uart_isr_receive_pointers (byte : Z) (ub ub' : uart_buf_t) :
  uart_isr_receive byte ub = Some ub' ->
  reading_buf ub <> NULL ->
  (forall p, p <> reading_buf ub -> deref ub' p = deref ub p) /\
  reading_buf ub' <> NULL /\
  (completes_frame byte ub = true ->
     command ub' = reading_buf ub /\
     reading_buf ub' = other_buf (reading_buf ub)) /\
  (completes_frame byte ub = false ->
     command ub' = command ub /\ reading_buf ub' = reading_buf ub).
Proof.
  unfold uart_isr_receive, completes_frame, store_decoded.
  destruct (SLIP_recv_byte byte (state ub)) as [r st].
  destruct ub as [a b p rd s c]; simpl.
  intros Hrun Hp.
  destruct (0 <=? r);
    [destruct p; [congruence| |]; simpl in *;
       (destruct (decide _); [|discriminate]); simpl in *;
       destruct (_ =? buf_size); rewrite ?Z.eqb_refl in *|];
    try destruct (r =? SLIP_FINISHED_FRAME);
    unfold finish_frame in Hrun; simpl in Hrun;
    try (destruct p; [congruence| |]; simpl in Hrun);
    injection Hrun as <-; simpl;
    (repeat split); try congruence;
    intros [] **; simpl; congruence.
Qed.

(** C9: every call of the per-byte handler preserves the invariant that
    the ready pointer and the active receive target are different
    buffers; the call leaves the buffer published before it untouched,
    and on frame completion the ready pointer becomes the buffer just
    filled while the receive target moves to the other buffer. *)
Theorem uart_isr_receive_never_writes_ready
    (byte : Z) (ub ub' : uart_buf_t) :
  reading_buf ub <> NULL ->
  ready_not_active ub ->
  uart_isr_receive byte ub = Some ub' ->
  ready_not_active ub' /\
  deref ub' (command ub) = deref ub (command ub) /\
  (completes_frame byte ub = true ->
     command ub' = reading_buf ub /\
     reading_buf ub' = other_buf (reading_buf ub) /\
     reading_buf ub' <> command ub') /\
  ready_not_active (snd (take_command ub')).
Proof.
  intros Hp Hinv Hrun.
  destruct (uart_isr_receive_pointers byte ub ub' Hrun Hp)
    as (Hframe & Hp' & Hdone & Hkeep).
  unfold ready_not_active in *.
  assert (Hswap : reading_buf ub <> other_buf (reading_buf ub))
    by (destruct (reading_buf ub); simpl; congruence).
  split.
  - destruct (completes_frame byte ub) eqn:Hc.
    + destruct (Hdone eq_refl) as [-> ->]. exact Hswap.
    + destruct (Hkeep eq_refl) as [-> ->]. exact Hinv.
  - split; [apply Hframe; exact Hinv|].
    split.
    + intros Hc. destruct (Hdone Hc) as [Hc1 Hc2].
      repeat split; try assumption. rewrite Hc1, Hc2. congruence.
    + simpl. congruence.
Qed.

End ReceiveFacts.

(** ** Command dispatcher *)

Section DispatcherFacts.
Context `{BlockSize} `{ErrorCodes} `{Collaborators}.

Ltac unfold_loop :=
  unfold run, cmd_loop_body, make_response, pre_action, post_action,
    check_flash_data, c_lor, verify_data_len, bind, ret, emit, call,
    call_void, query, header_events, status_events, ESP_OK.

(** Case split on the oversize test of [cmd_loop]. *)
Ltac size_cases :=
  match goal with
  | |- context [?a >? ?b] => destruct (Z.gtb_spec a b); try lia
  end.

(** Case split on the [ESP_READ_REG && data_len == 4] test. *)
Ltac read_reg_cases :=
  match goal with
  | |- context [decide (?o = ESP_READ_REG /\ ?n = 4)] =>
      destruct (decide (o = ESP_READ_REG /\ n = 4)) as [[? ?]|?];
      try congruence; try lia
  end.

(** C5: a command whose [data_len] exceeds [MAX_WRITE_BLOCK+16] gets the
    header followed by the fixed pair (ESP_BAD_DATA_LEN, 0xEE), and
    nothing else happens, whatever the op: no register read, no first
    stage, no second stage, and the collaborators' state is unchanged. *)
Theorem cmd_loop_body_oversize (s : FS) (c : esp_command_req_t) :
  0 <= MAX_WRITE_BLOCK ->
  data_len c > MAX_WRITE_BLOCK + 16 ->
  run (cmd_loop_body c) s =
    (Next, mk_world s (header_events (mk_resp 1 (op c) 0 0)
                         ++ status_events ESP_BAD_DATA_LEN 238)).
Proof.
  intros Hm Hbig. unfold_loop.
  read_reg_cases. simpl. size_cases. reflexivity.
Qed.

(** C7: [ESP_READ_REG] with a 4-byte payload reads the register at
    [data_words[0]] first, sends the header with that value in [value],
    and then reports error 0 and status 0. *)
Theorem cmd_loop_body_read_reg (s : FS) (c : esp_command_req_t) :
  0 <= MAX_WRITE_BLOCK ->
  op c = ESP_READ_REG -> data_len c = 4 ->
  run (cmd_loop_body c) s =
    (Next, mk_world s
       (Ev_REG_READ (data_words c 0)
          :: header_events
               (mk_resp 1 ESP_READ_REG 0 (REG_READ (data_words c 0) s))
          ++ status_events 0 0)).
Proof.
  intros Hm Hop Hlen. unfold_loop.
  read_reg_cases; [|exfalso; auto]. simpl. size_cases.
  rewrite Hop. simpl. rewrite Hlen. reflexivity.
Qed.

(** The reset happens for [ESP_FLASH_END], and only for it: inside the
    size limit, with [handle_flash_end] returning 0 and
    [data_words[0] == 0]. *)
Theorem cmd_loop_body_reset_iff (s : FS) (c : esp_command_req_t) :
  fst (run (cmd_loop_body c) s) = Reset <->
  op c = ESP_FLASH_END /\ data_len c <= MAX_WRITE_BLOCK + 16 /\
  fst (handle_flash_end s) = 0 /\ data_words c 0 = 0.
Proof.
  unfold_loop. destruct c as [o n k d]. simpl.
  destruct (decide (o = ESP_READ_REG /\ n = 4)) as [[-> ->]|Hrr]; simpl.
  - destruct (4 >? MAX_WRITE_BLOCK + 16); simpl; split;
      try discriminate; intros (? & _); discriminate.
  - destruct (Z.gtb_spec n (MAX_WRITE_BLOCK + 16)); simpl.
    + split; [discriminate|]. intros (_ & ? & _). lia.
    + destruct o; simpl;
        repeat match goal with
        | |- context [handle_flash_end s] =>
            destruct (handle_flash_end s) as [e s']; simpl
        | |- context [is_in_flash_mode s] =>
            destruct (is_in_flash_mode s); simpl
        | |- context [let (_, _) := ?x in _] => destruct x; simpl
        | |- context [if ?a =? ?b then _ else _] =>
            destruct (Z.eqb_spec a b); simpl
        end;
        split; try discriminate; try (intros (? & _); discriminate);
        try (intros (_ & _ & ? & ?); congruence);
        try (intros _; repeat split; try lia; congruence).
Qed.

(** [ESP_FLASH_END] with a successful finalize and [data_words[0] == 0]:
    the response is sent, the transmitter flushed, and the chip reset. *)
Theorem cmd_loop_body_flash_end_resets (s : FS) (c : esp_command_req_t) :
  op c = ESP_FLASH_END -> data_len c <= MAX_WRITE_BLOCK + 16 ->
  fst (handle_flash_end s) = 0 -> data_words c 0 = 0 ->
  run (cmd_loop_body c) s =
    (Reset, mk_world (snd (handle_flash_end s))
       (header_events (mk_resp 1 ESP_FLASH_END 0 0)
          ++ Ev_handle_flash_end :: status_events 0 0
          ++ [Ev_uart_tx_flush 0; Ev_software_reset])).
Proof.
  intros Hop Hlen Hok Harg. unfold_loop.
  read_reg_cases. simpl. size_cases. rewrite Hop. simpl.
  destruct (handle_flash_end s) as [e s']. simpl in *. subst e. simpl.
  rewrite Harg. reflexivity.
Qed.

(** C1, as the code has it for the compressed variant:
    [ESP_FLASH_DEFLATED_END] with a successful finalize and
    [data_words[0] == 0] sends its response and goes back to waiting;
    there is no flush and no [software_reset()]. *)
Theorem cmd_loop_body_deflated_end_no_reset (s : FS) (c : esp_command_req_t) :
  op c = ESP_FLASH_DEFLATED_END -> data_len c <= MAX_WRITE_BLOCK + 16 ->
  fst (handle_flash_end s) = 0 -> data_words c 0 = 0 ->
  run (cmd_loop_body c) s =
    (Next, mk_world (snd (handle_flash_end s))
       (header_events (mk_resp 1 ESP_FLASH_DEFLATED_END 0 0)
          ++ Ev_handle_flash_end :: status_events 0 0)).
Proof.
  intros Hop Hlen Hok Harg. unfold_loop.
  read_reg_cases. simpl. size_cases. rewrite Hop. simpl.
  destruct (handle_flash_end s) as [e s']. simpl in *. subst e.
  reflexivity.
Qed.

(** After the reset no further command is processed. *)
Theorem cmd_loop_stops_at_reset
    (s : FS) (c : esp_command_req_t) (rest : list esp_command_req_t) :
  fst (run (cmd_loop_body c) s) = Reset ->
  run (cmd_loop (c :: rest)) s = run (cmd_loop_body c) s.
Proof.
  unfold run. simpl. unfold bind at 1.
  destruct (cmd_loop_body c (mk_world s [])) as [o w]. simpl.
  intros ->. reflexivity.
Qed.

(** C10: [ESP_FLASH_END] and [ESP_FLASH_DEFLATED_END] inside the size
    limit go through no length check: whatever [data_len] is,
    [handle_flash_end] is called once, before the status is sent, and the
    error reported is the code it returned; the dispatcher reports
    ESP_BAD_DATA_LEN only if that code is ESP_BAD_DATA_LEN. *)
Theorem cmd_loop_body_flash_end_any_length (s : FS) (c : esp_command_req_t) :
  op c = ESP_FLASH_END \/ op c = ESP_FLASH_DEFLATED_END ->
  data_len c <= MAX_WRITE_BLOCK + 16 ->
  let w' := snd (run (cmd_loop_body c) s) in
  let r := fst (handle_flash_end s) in
  (exists post,
     trace w' = header_events (mk_resp 1 (op c) 0 0)
                  ++ Ev_handle_flash_end :: status_events r 0 ++ post /\
     ~ In Ev_handle_flash_end post) /\
  fs w' = snd (handle_flash_end s) /\
  response_error (trace w') = Some r /\
  (r <> ESP_BAD_DATA_LEN -> response_error (trace w') <> Some ESP_BAD_DATA_LEN).
Proof.
  intros Hop Hlen. unfold_loop.
  read_reg_cases; [destruct Hop; congruence|]. simpl. size_cases.
  destruct Hop as [Hop|Hop]; rewrite Hop; simpl;
    destruct (handle_flash_end s) as [e s']; simpl;
    destruct (Z.eqb_spec e 0); simpl;
    try destruct (Z.eqb_spec (data_words c 0) 0); simpl;
    (split; [eexists; split; [reflexivity|simpl; intuition discriminate]|]);
    (split; [reflexivity|]); (split; [reflexivity|]); congruence.
Qed.

(** C4, as the code has it: for each of the eleven ops with a required
    length, a command of any other length inside the size limit is
    answered with a non-zero error and nothing else happens (no register
    access, no collaborator call, state unchanged).  The error byte is
    ESP_BAD_DATA_LEN for the four ops that assign [verify_data_len]
    directly, and 1, the value of C's [||], for the seven ops written
    [verify_data_len(..) || handler(..)]. *)
Theorem cmd_loop_body_length_mismatch
    (s : FS) (c : esp_command_req_t) (n : Z) :
  required_len (op c) = Some n -> data_len c <> n ->
  data_len c <= MAX_WRITE_BLOCK + 16 -> ESP_BAD_DATA_LEN <> 0 ->
  run (cmd_loop_body c) s =
    (Next, mk_world s
       (header_events (mk_resp 1 (op c) 0 0)
          ++ status_events
               (if uses_logical_or (op c) then 1 else ESP_BAD_DATA_LEN) 0)).
Proof.
  intros Hreq Hne Hlen Hbad. unfold_loop.
  destruct c as [o k cks d]. simpl in *.
  destruct (decide (o = ESP_READ_REG /\ k = 4)) as [[-> ->]|Hrr].
  - simpl in Hreq. congruence.
  - simpl. size_cases.
    destruct o; simpl in Hreq; try discriminate;
      injection Hreq as <-; simpl;
      repeat (match goal with
              | |- context [if ?a =? ?b then _ else _] =>
                  destruct (Z.eqb_spec a b); [congruence|]
              end; simpl);
      reflexivity.
Qed.

(** The first stage of a data command inside a write session: the error
    it computes. *)
Lemma check_flash_data_in_session (c : esp_command_req_t) (w : world) :
  is_in_flash_mode (fs w) = true ->
  check_flash_data c w =
    ((if calculate_checksum (drop 16 (data_buf c)) (data_len c - 16)
           =? checksum c
      then if data_words c 0 =? to_uint32 (data_len c - 16)
           then get_flash_error (fs w) else ESP_BAD_DATA_LEN
      else ESP_BAD_DATA_CHECKSUM), w).
Proof.
  intros Hin. unfold check_flash_data, bind, query, ret. rewrite Hin.
  reflexivity.
Qed.

(** The error a data command inside a write session is answered with. *)
Lemma flash_data_response_error (s : FS) (c : esp_command_req_t) :
  op c = ESP_FLASH_DATA \/ op c = ESP_FLASH_DEFLATED_DATA ->
  is_in_flash_mode s = true ->
  data_len c <= MAX_WRITE_BLOCK + 16 ->
  response_error (trace (snd (run (cmd_loop_body c) s))) =
    Some (if calculate_checksum (drop 16 (data_buf c)) (data_len c - 16)
               =? checksum c
          then if data_words c 0 =? to_uint32 (data_len c - 16)
               then get_flash_error s else ESP_BAD_DATA_LEN
          else ESP_BAD_DATA_CHECKSUM).
Proof.
  intros Hop Hin Hlen.
  unfold run, cmd_loop_body, make_response, pre_action.
  read_reg_cases; [destruct Hop; congruence|].
  unfold bind at 1 2 3 4. unfold ret at 1 2. unfold emit at 1 2.
  cbn [fst snd fs trace app]. size_cases.
  assert (Hpre : forall w, is_in_flash_mode (fs w) = true ->
            pre_action c w = (fst (check_flash_data c w), 0, snd (check_flash_data c w))).
  { intros w Hw. unfold pre_action.
    destruct Hop as [-> | ->]; unfold bind, ret;
      destruct (check_flash_data c w); reflexivity. }
  unfold bind at 1. fold (pre_action c). rewrite Hpre by exact Hin.
  rewrite check_flash_data_in_session by exact Hin.
  cbn [fst snd fs]. unfold bind at 1 2 3, emit at 1 2 3.
  cbn [fst snd fs trace app].
  set (e := if _ =? checksum c then _ else _).
  destruct (e =? ESP_OK).
  - unfold post_action, bind, ret, call_void.
    destruct Hop as [-> | ->]; reflexivity.
  - reflexivity.
Qed.

(** C2, amended: for a data command inside a write session the first
    payload word is compared with [data_len - 16] (as a 32-bit unsigned
    value) and the checksum is taken over the [data_len - 16] bytes that
    follow the 16-byte data header, not over everything after the length
    word; the command succeeds exactly when the length word matches, that
    checksum equals the header's checksum field and the session carries
    no earlier error. *)
Theorem flash_data_checksum_after_header (s : FS) (c : esp_command_req_t) :
  op c = ESP_FLASH_DATA \/ op c = ESP_FLASH_DEFLATED_DATA ->
  is_in_flash_mode s = true ->
  data_len c <= MAX_WRITE_BLOCK + 16 ->
  ESP_BAD_DATA_LEN <> 0 -> ESP_BAD_DATA_CHECKSUM <> 0 ->
  let t := trace (snd (run (cmd_loop_body c) s)) in
  let sum := calculate_checksum (drop 16 (data_buf c)) (data_len c - 16) in
  (response_error t = Some ESP_OK <->
     data_words c 0 = to_uint32 (data_len c - 16) /\
     sum = checksum c /\ get_flash_error s = ESP_OK) /\
  (sum <> checksum c -> response_error t = Some ESP_BAD_DATA_CHECKSUM) /\
  (sum = checksum c -> data_words c 0 <> to_uint32 (data_len c - 16) ->
     response_error t = Some ESP_BAD_DATA_LEN).
Proof.
  intros Hop Hin Hlen Hbl Hbc t sum. subst t sum.
  rewrite (flash_data_response_error s c Hop Hin Hlen). unfold ESP_OK.
  destruct (Z.eqb_spec
              (calculate_checksum (drop 16 (data_buf c)) (data_len c - 16))
              (checksum c)) as [Hs|Hs];
    [destruct (Z.eqb_spec (data_words c 0) (to_uint32 (data_len c - 16)))
       as [Hw|Hw]|];
    (split; [split; [intros [= Heq]|intros (? & ? & ?)]|split; intros]);
    try congruence; try (repeat split; congruence).
Qed.

(** C3, amended: a [ESP_FLASH_DATA] command inside a write session whose
    length word differs from [data_len - 16] is answered with a non-zero
    error, ESP_BAD_DATA_LEN when the payload checksum equals the header's
    checksum field (or the command is oversize) and ESP_BAD_DATA_CHECKSUM
    when it does not, and in either case [handle_flash_data] is not
    called and the collaborators' state is unchanged. *)
Theorem flash_data_length_word_mismatch (s : FS) (c : esp_command_req_t) :
  op c = ESP_FLASH_DATA -> is_in_flash_mode s = true ->
  16 <= data_len c < 65536 ->
  data_words c 0 <> data_len c - 16 ->
  ESP_BAD_DATA_LEN <> 0 -> ESP_BAD_DATA_CHECKSUM <> 0 ->
  exists e st,
    run (cmd_loop_body c) s =
      (Next, mk_world s (header_events (mk_resp 1 ESP_FLASH_DATA 0 0)
                           ++ status_events e st)) /\
    e <> ESP_OK /\
    (e = ESP_BAD_DATA_LEN \/ e = ESP_BAD_DATA_CHECKSUM) /\
    (calculate_checksum (drop 16 (data_buf c)) (data_len c - 16) = checksum c ->
       e = ESP_BAD_DATA_LEN) /\
    (calculate_checksum (drop 16 (data_buf c)) (data_len c - 16) <> checksum c ->
       data_len c <= MAX_WRITE_BLOCK + 16 -> e = ESP_BAD_DATA_CHECKSUM).
Proof.
  intros Hop Hin Hrange Hword Hbl Hbc.
  assert (Hu : to_uint32 (data_len c - 16) = data_len c - 16)
    by (unfold to_uint32; apply Z.mod_small; lia).
  unfold run, cmd_loop_body, make_response.
  read_reg_cases.
  unfold bind at 1 2 3 4. unfold ret at 1 2. unfold emit at 1 2.
  cbn [fst snd fs trace app].
  destruct (Z.gtb_spec (data_len c) (MAX_WRITE_BLOCK + 16)) as [Hbig|Hfit].
  - exists ESP_BAD_DATA_LEN, 238. rewrite Hop.
    split; [reflexivity|]. unfold ESP_OK.
    repeat split; auto; intros; lia.
  - unfold pre_action. rewrite Hop. unfold bind at 1 2.
    rewrite check_flash_data_in_session by exact Hin.
    rewrite Hu. destruct (Z.eqb_spec (data_words c 0) (data_len c - 16));
      [contradiction|].
    destruct (Z.eqb_spec
                (calculate_checksum (drop 16 (data_buf c)) (data_len c - 16))
                (checksum c)) as [Hs|Hs].
    + exists ESP_BAD_DATA_LEN, 0. unfold ret at 1. cbn [fst snd].
      unfold bind, emit. cbn [fst snd fs trace app].
      destruct (Z.eqb_spec ESP_BAD_DATA_LEN ESP_OK) as [E|_];
        [unfold ESP_OK in E; contradiction|].
      split; [reflexivity|]. unfold ESP_OK.
      repeat split; auto; intros; congruence.
    + exists ESP_BAD_DATA_CHECKSUM, 0. unfold ret at 1. cbn [fst snd].
      unfold bind, emit. cbn [fst snd fs trace app].
      destruct (Z.eqb_spec ESP_BAD_DATA_CHECKSUM ESP_OK) as [E|_];
        [unfold ESP_OK in E; contradiction|].
      split; [reflexivity|]. unfold ESP_OK.
      repeat split; auto; intros; congruence.
Qed.

End DispatcherFacts.

(** ** The theorems at concrete inputs *)

Lemma calculate_checksum_single_byte_change_witness :
  calculate_checksum [1; 2; 3] 3 = xor_fold [1; 2; 3] /\
  calculate_checksum (<[1%nat := 7]> [1; 2; 3]) 3
    <> calculate_checksum [1; 2; 3] 3.
Proof.
  destruct (calculate_checksum_single_byte_change [1; 2; 3] 3 1%nat 7)
    as (Hfold & _ & Hdiff).
  - repeat constructor; unfold is_byte; lia.
  - unfold is_byte; lia.
  - simpl; lia.
  - lia.
  - simpl. discriminate.
  - split; [exact Hfold|exact Hdiff].
Defined.

Lemma uart_isr_receive_in_bounds_witness :
  exists ub', receive_small [1; 219; 220; 192; 7] = Some ub' /\
              @ub_wf slip_model small_block ub'.
Proof.
  unfold receive_small.
  destruct (@uart_isr_receive_in_bounds slip_model small_block
              [1; 219; 220; 192; 7]) as [Hrun _].
  - simpl; lia.
  - simpl; lia.
  - exact Hrun.
Defined.

Lemma uart_isr_receive_never_writes_ready_witness :
  @ready_not_active slip_model
    (@mk_ub slip_model (repeat 0 66%nat) (repeat 0 66%nat) BUF_B 0 false BUF_A).
Proof.
  destruct (@uart_isr_receive_never_writes_ready slip_model small_block 192
              (@ub_init slip_model small_block)
              (@mk_ub slip_model (repeat 0 66%nat) (repeat 0 66%nat)
                      BUF_B 0 false BUF_A)) as [Hinv _].
  - simpl. discriminate.
  - unfold ready_not_active. simpl. discriminate.
  - reflexivity.
  - exact Hinv.
Defined.

Lemma cmd_loop_body_oversize_witness :
  run_stub oversize_cmd idle =
    (Next, @mk_world mock idle
             (header_events (mk_resp 1 ESP_READ_REG 0 0)
                ++ status_events 192 238)).
Proof.
  unfold run_stub.
  apply (@cmd_loop_body_oversize stub_block esptool_codes mock idle oversize_cmd);
    simpl; lia.
Defined.

Lemma cmd_loop_body_read_reg_witness :
  run_stub read_reg_cmd idle =
    (Next, @mk_world mock idle
             (Ev_REG_READ 1072693248
                :: header_events (mk_resp 1 ESP_READ_REG 0 3735928559)
                ++ status_events 0 0)).
Proof.
  unfold run_stub.
  apply (@cmd_loop_body_read_reg stub_block esptool_codes mock idle read_reg_cmd).
  - simpl; lia.
  - reflexivity.
  - reflexivity.
Defined.

Lemma cmd_loop_body_deflated_end_no_reset_witness :
  run_stub (end_cmd ESP_FLASH_DEFLATED_END) in_session =
    (Next, @mk_world mock (mk_mock false 0 0)
             (header_events (mk_resp 1 ESP_FLASH_DEFLATED_END 0 0)
                ++ Ev_handle_flash_end :: status_events 0 0)).
Proof.
  unfold run_stub.
  apply (@cmd_loop_body_deflated_end_no_reset stub_block esptool_codes mock
           in_session (end_cmd ESP_FLASH_DEFLATED_END)).
  - reflexivity.
  - simpl; lia.
  - reflexivity.
  - reflexivity.
Defined.

Lemma cmd_loop_body_flash_end_resets_witness :
  run_stub (end_cmd ESP_FLASH_END) in_session =
    (Reset, @mk_world mock (mk_mock false 0 0)
              (header_events (mk_resp 1 ESP_FLASH_END 0 0)
                 ++ Ev_handle_flash_end :: status_events 0 0
                 ++ [Ev_uart_tx_flush 0; Ev_software_reset])).
Proof.
  unfold run_stub.
  apply (@cmd_loop_body_flash_end_resets stub_block esptool_codes mock
           in_session (end_cmd ESP_FLASH_END)).
  - reflexivity.
  - simpl; lia.
  - reflexivity.
  - reflexivity.
Defined.

Lemma cmd_loop_body_flash_end_any_length_witness :
  response_error (trace (snd (run_stub (mk_req ESP_FLASH_END 0 0 []) in_session)))
    = Some 0 /\
  In Ev_handle_flash_end
     (trace (snd (run_stub (mk_req ESP_FLASH_END 0 0 []) in_session))).
Proof.
  unfold run_stub.
  destruct (@cmd_loop_body_flash_end_any_length stub_block esptool_codes mock
              in_session (mk_req ESP_FLASH_END 0 0 []))
    as ((post & Htrace & _) & _ & Herr & _).
  - left. reflexivity.
  - simpl; lia.
  - split; [exact Herr|].
    rewrite Htrace. simpl. auto.
Defined.

Lemma cmd_loop_body_length_mismatch_witness :
  run_stub erase_region_short idle =
    (Next, @mk_world mock idle
             (header_events (mk_resp 1 ESP_ERASE_REGION 0 0)
                ++ status_events 1 0)).
Proof.
  unfold run_stub.
  apply (@cmd_loop_body_length_mismatch stub_block esptool_codes mock
           idle erase_region_short 8).
  - reflexivity.
  - simpl; lia.
  - simpl; lia.
  - simpl; lia.
Defined.

Lemma flash_data_checksum_after_header_witness :
  response_error (trace (snd (run_stub (data_block ESP_FLASH_DATA 1 5 69) in_session)))
    = Some ESP_OK <->
  data_words (data_block ESP_FLASH_DATA 1 5 69) 0 = to_uint32 (17 - 16) /\
  calculate_checksum [170] 1 = 69 /\ 0 = ESP_OK.
Proof.
  unfold run_stub.
  destruct (@flash_data_checksum_after_header stub_block esptool_codes mock
              in_session (data_block ESP_FLASH_DATA 1 5 69)) as [Hiff _].
  - left. reflexivity.
  - reflexivity.
  - simpl; lia.
  - simpl; lia.
  - simpl; lia.
  - exact Hiff.
Defined.

Lemma flash_data_length_word_mismatch_witness :
  exists e st,
    run_stub (data_block ESP_FLASH_DATA 2 0 69) in_session =
      (Next, @mk_world mock in_session
               (header_events (mk_resp 1 ESP_FLASH_DATA 0 0)
                  ++ status_events e st)) /\
    e <> ESP_OK.
Proof.
  unfold run_stub.
  destruct (@flash_data_length_word_mismatch stub_block esptool_codes mock
              in_session (data_block ESP_FLASH_DATA 2 0 69))
    as (e & st & Hrun & Hne & _).
  - reflexivity.
  - reflexivity.
  - simpl; lia.
  - vm_compute. discriminate.
  - simpl; lia.
  - simpl; lia.
  - exists e, st. split; [exact Hrun|exact Hne].
Defined.

(** ** Where the code departs from the specification *)

(** C2, as stated, fails: this data block carries a non-zero byte (the
    sequence number 5) between the length word and the data.  The
    command succeeds and its data byte is forwarded, although the
    checksum of everything after the length word is not the header's
    checksum field. *)
Lemma flash_data_checksum_skips_data_header :
  op (data_block ESP_FLASH_DATA 1 5 69) = ESP_FLASH_DATA /\
  @is_in_flash_mode mock in_session = true /\
  run_stub (data_block ESP_FLASH_DATA 1 5 69) in_session =
    (Next, @mk_world mock in_session
             (header_events (mk_resp 1 ESP_FLASH_DATA 0 0)
                ++ status_events 0 0
                ++ [Ev_handle_flash_data [170] 1])) /\
  calculate_checksum (drop 4 (data_buf (data_block ESP_FLASH_DATA 1 5 69)))
                     (data_len (data_block ESP_FLASH_DATA 1 5 69) - 4)
    <> checksum (data_block ESP_FLASH_DATA 1 5 69).
Proof.
  repeat split. vm_compute. discriminate.
Qed.

(** C3, as stated, fails: inside a write session, a block whose length
    word (2) differs from the payload size (1) and whose checksum field
    is wrong as well is answered with ESP_BAD_DATA_CHECKSUM, not
    ESP_BAD_DATA_LEN. *)
Lemma flash_data_length_mismatch_reports_checksum :
  op (data_block ESP_FLASH_DATA 2 0 0) = ESP_FLASH_DATA /\
  @is_in_flash_mode mock in_session = true /\
  data_words (data_block ESP_FLASH_DATA 2 0 0) 0
    <> data_len (data_block ESP_FLASH_DATA 2 0 0) - 16 /\
  response_error (trace (snd (run_stub (data_block ESP_FLASH_DATA 2 0 0) in_session)))
    = Some (@ESP_BAD_DATA_CHECKSUM esptool_codes) /\
  response_error (trace (snd (run_stub (data_block ESP_FLASH_DATA 2 0 0) in_session)))
    <> Some (@ESP_BAD_DATA_LEN esptool_codes).
Proof.
  repeat split; vm_compute; discriminate.
Qed.

(** ** Runs of the model *)

(** An escaped delimiter is stored as one byte; the delimiter publishes
    buffer A and moves reception to buffer B. *)
Example receive_small_frame :
  receive_small [1; 219; 220; 192; 7] =
    Some (@mk_ub slip_model
            ([1; 192] ++ repeat 0 64%nat) ([7] ++ repeat 0 65%nat)
            BUF_B 1 false BUF_A).
Proof. reflexivity. Qed.

(** Sixty-six data bytes without a delimiter fill buffer A exactly: the
    frame is completed by force and the offset is back at 0. *)
Example receive_small_full :
  receive_small (repeat 1 66%nat) =
    Some (@mk_ub slip_model (repeat 1 66%nat) (repeat 0 66%nat)
                 BUF_B 0 false BUF_A).
Proof. reflexivity. Qed.

(** [ERASE_REGION(addr = 0x1000, len = 0x1000)]: one erase call with
    these bounds, then error 0 and status 0. *)
Example run_erase_region :
  run_stub (mk_req ESP_ERASE_REGION 8 0 (le32 4096 ++ le32 4096)) idle =
    (Next, @mk_world mock idle
             (header_events (mk_resp 1 ESP_ERASE_REGION 0 0)
                ++ Ev_handle_flash_erase 4096 4096 :: status_events 0 0)).
Proof. reflexivity. Qed.

(** [FLASH_END(0)] after a write session: response, flush, reset, and the
    command that follows is not processed. *)
Example run_flash_end_then_more :
  @run mock outcome
    (@cmd_loop stub_block esptool_codes mock
       [end_cmd ESP_FLASH_END; read_reg_cmd]) in_session =
    run_stub (end_cmd ESP_FLASH_END) in_session.
Proof. reflexivity. Qed.

(** The same two commands with the compressed variant of the end
    command: the register read that follows is processed. *)
Example run_deflated_end_then_more :
  fst (@run mock outcome
         (@cmd_loop stub_block esptool_codes mock
            [end_cmd ESP_FLASH_DEFLATED_END; read_reg_cmd]) in_session) = Next /\
  In (Ev_REG_READ 1072693248)
     (trace (snd (@run mock outcome
                    (@cmd_loop stub_block esptool_codes mock
                       [end_cmd ESP_FLASH_DEFLATED_END; read_reg_cmd])
                    in_session))).
Proof. split; [reflexivity|]. vm_compute. tauto. Qed.

(** The four ops that assign [verify_data_len] directly report
    ESP_BAD_DATA_LEN itself. *)
Example run_read_reg_long :
  run_stub (mk_req ESP_READ_REG 5 0 (le32 1072693248 ++ [0])) idle =
    (Next, @mk_world mock idle
             (header_events (mk_resp 1 ESP_READ_REG 0 0)
                ++ status_events 192 0)).
Proof. reflexivity. Qed.

(** * Further properties *)

(** ** Checksum and divider arithmetic *)

(** Over a whole buffer of bytes the checksum is the plain fold. *)
Lemma calculate_checksum_whole (l : list Z) :
  Forall is_byte l ->
  calculate_checksum l (Z.of_nat (length l)) = xor_fold l.
Proof.
  intros Hl. unfold calculate_checksum, xor_fold.
  rewrite checksum_loop_fold; [|exact Hl|unfold is_byte; lia|lia].
  rewrite Nat2Z.id, take_ge by lia. reflexivity.
Qed.


(** X2: the checksum of two byte blocks laid end to end is the XOR of
    their checksums and the seed, so a block can be checked piecewise. *)
Theorem calculate_checksum_app (a b : list Z) :
  Forall is_byte a -> Forall is_byte b ->
  calculate_checksum (a ++ b) (Z.of_nat (length (a ++ b))) =
    Z.lxor (calculate_checksum a (Z.of_nat (length a)))
           (Z.lxor 239 (calculate_checksum b (Z.of_nat (length b)))).
Proof.
  intros Ha Hb.
  rewrite !calculate_checksum_whole by (try apply Forall_app; auto).
  unfold xor_fold. rewrite fold_left_app.
  rewrite (fold_lxor_seed b (fold_left Z.lxor a 239)).
  rewrite (fold_lxor_seed b 239).
  rewrite <- (Z.lxor_assoc 239 239), Z.lxor_nilpotent, Z.lxor_0_l.
  reflexivity.
Qed.

Lemma fold_lxor_perm (l l' : list Z) :
  Permutation l l' ->
  forall a, fold_left Z.lxor l a = fold_left Z.lxor l' a.
Proof.
  induction 1 as [|x l l' _ IH|x y l|l l' l'' _ IH1 _ IH2]; intros a; simpl.
  - reflexivity.
  - apply IH.
  - f_equal. rewrite !Z.lxor_assoc. f_equal. apply Z.lxor_comm.
  - rewrite IH1. apply IH2.
Qed.

(** X3: the checksum does not see the order of the bytes: any
    rearrangement of a block has the checksum of the block. *)
Theorem calculate_checksum_permutation (l l' : list Z) :
  Forall is_byte l -> Permutation l l' ->
  calculate_checksum l' (Z.of_nat (length l')) =
    calculate_checksum l (Z.of_nat (length l)).
Proof.
  intros Hl Hp.
  assert (Hl' : Forall is_byte l').
  { rewrite Forall_forall in *. intros x Hx. apply Hl.
    rewrite list_elem_of_In in *. eapply Permutation_in; [|exact Hx].
    symmetry. exact Hp. }
  rewrite !calculate_checksum_whole by assumption.
  unfold xor_fold. symmetry. apply fold_lxor_perm. exact Hp.
Qed.

(** X4: when the sum does not overflow 32 bits, [baud_rate_to_divider]
    is the clock (crystal frequency times 16) divided by the baud rate
    and rounded to the nearest integer: the divider times the baud rate
    is within half a baud rate of the clock. *)
Theorem baud_rate_to_divider_rounds (xtal baud_rate : Z) :
  0 < baud_rate -> 0 <= xtal ->
  16 * xtal + baud_rate / 2 < 4294967296 ->
  2 * Z.abs (16 * xtal - baud_rate_to_divider xtal baud_rate * baud_rate)
    <= baud_rate.
Proof.
  intros Hb Hx Hfit. unfold baud_rate_to_divider, to_uint32.
  rewrite Z.shiftl_mul_pow2 by lia. change (2 ^ 4) with 16.
  assert (Hh : 0 <= baud_rate / 2) by (apply Z.div_pos; lia).
  rewrite (Z.mod_small (xtal * 16)) by lia.
  rewrite Z.mod_small by lia.
  pose proof (Z.div_mod (xtal * 16 + baud_rate / 2) baud_rate ltac:(lia)) as Hdm.
  pose proof (Z.mod_pos_bound (xtal * 16 + baud_rate / 2) baud_rate Hb) as Hm.
  pose proof (Z.div_mod baud_rate 2 ltac:(lia)) as Hd2.
  pose proof (Z.mod_pos_bound baud_rate 2 ltac:(lia)) as Hm2.
  lia.
Qed.

(** ** Receive path: what ends up in the buffers *)

Section ReceiveFrames.
Context `{Slip} `{BlockSize}.

(** A call changes at most the byte at the current offset of the active
    buffer, and that one only when the decoder produced a byte. *)
Lemma uart_isr_receive_other_bytes (byte : Z) (ub ub' : uart_buf_t) :
  uart_isr_receive byte ub = Some ub' -> 0 <= read ub ->
  state ub' = snd (SLIP_recv_byte byte (state ub)) /\
  forall p j, 0 <= j ->
    p <> reading_buf ub \/ j <> read ub
      \/ fst (SLIP_recv_byte byte (state ub)) < 0 ->
    byte_at ub' p j = byte_at ub p j.
Proof.
  unfold uart_isr_receive, store_decoded, byte_at.
  destruct (SLIP_recv_byte byte (state ub)) as [r st].
  destruct ub as [a b p0 rd s c]; simpl.
  intros Hrun Hrd.
  destruct (Z.leb_spec 0 r) as [Hr|Hr];
    [destruct p0; [discriminate| |]; simpl in *;
       (destruct (decide _); [|discriminate]); simpl in *;
       destruct (_ =? buf_size); rewrite ?Z.eqb_refl in *|];
    try destruct (r =? SLIP_FINISHED_FRAME);
    unfold finish_frame in Hrun; simpl in Hrun;
    try (destruct p0; simpl in Hrun);
    injection Hrun as <-; simpl;
    (split; [reflexivity|]);
    intros [] j Hj Hcase; simpl; try reflexivity;
    try (apply list_lookup_insert_ne;
         destruct Hcase as [Hc|[Hc|Hc]]; [congruence|lia|lia]).
Qed.

(** A call that does not end the frame. *)
Lemma uart_isr_receive_open (byte : Z) (ub : uart_buf_t) :
  0 <= MAX_WRITE_BLOCK -> MAX_WRITE_BLOCK + 64 < 65536 -> ub_wf ub ->
  fst (SLIP_recv_byte byte (state ub)) <> SLIP_FINISHED_FRAME ->
  (0 <= fst (SLIP_recv_byte byte (state ub)) -> read ub + 1 < buf_size) ->
  exists ub', uart_isr_receive byte ub = Some ub' /\ ub_wf ub' /\
    reading_buf ub' = reading_buf ub /\ command ub' = command ub /\
    read ub' = (if 0 <=? fst (SLIP_recv_byte byte (state ub))
                then read ub + 1 else read ub) /\
    (0 <= fst (SLIP_recv_byte byte (state ub)) ->
       byte_at ub' (reading_buf ub) (read ub)
         = Some (to_uint8 (fst (SLIP_recv_byte byte (state ub))))).
Proof.
  intros Hm Hcap Hwf Hne Hroom.
  destruct (uart_isr_receive_step byte ub Hm Hcap Hwf)
    as (ub' & Hrun & Hwf' & Hstore & _ & Hkeep).
  assert (Hc : completes_frame byte ub = false).
  { revert Hne Hroom. unfold completes_frame, store_decoded.
    destruct (SLIP_recv_byte byte (state ub)) as [r st]. simpl.
    intros Hne Hroom. destruct Hwf as (Ha & Hb & Hp & Hr).
    unfold buf_size in *.
    destruct (Z.leb_spec 0 r) as [Hr0|Hr0].
    - specialize (Hroom Hr0).
      destruct ub as [a b p rd s c]; simpl in *.
      destruct p; [congruence| |]; simpl;
        (destruct (decide _); [|exfalso; lia]); simpl;
        unfold to_uint16; rewrite Z.mod_small by lia;
        (destruct (Z.eqb_spec (rd + 1) (MAX_WRITE_BLOCK + 64)); [lia|]);
        apply Z.eqb_neq; exact Hne.
    - apply Z.eqb_neq. exact Hne. }
  destruct (Hkeep Hc) as (Hcmd & Hrb & Hread).
  exists ub'. repeat split; try assumption; try apply Hwf'.
  - destruct (Z.leb_spec 0 (fst (SLIP_recv_byte byte (state ub)))) as [Hr0|Hr0].
    + apply Hread. exact Hr0.
    + revert Hrun Hr0. unfold uart_isr_receive, store_decoded.
      destruct (SLIP_recv_byte byte (state ub)) as [r st]. simpl.
      intros Hrun Hr0. destruct (Z.leb_spec 0 r); [lia|].
      destruct (r =? SLIP_FINISHED_FRAME);
        [unfold finish_frame in Hrun; destruct (decide _)|];
        injection Hrun as <-; simpl in *; congruence.
  - intros Hr0. apply Hstore. exact Hr0.
Qed.

Lemma uart_isr_bytes_app (xs ys : list Z) (ub : uart_buf_t) :
  uart_isr_bytes (xs ++ ys) ub =
    match uart_isr_bytes xs ub with
    | None => None
    | Some ub' => uart_isr_bytes ys ub'
    end.
Proof.
  revert ub. induction xs as [|x xs IH]; intros ub; simpl.
  - reflexivity.
  - destruct (uart_isr_receive x ub); [apply IH|reflexivity].
Qed.

(** X5: incoming bytes that do not end the frame and fit the buffer are
    stored in order from the current offset: the decoded bytes sit at
    consecutive offsets of the active buffer, the offset advances by
    their number, results without a byte (escapes) store nothing, and
    everything else in both buffers and both pointers is unchanged. *)
Theorem uart_isr_bytes_stores_in_order (bytes : list Z) (ub : uart_buf_t) :
  0 <= MAX_WRITE_BLOCK -> MAX_WRITE_BLOCK + 64 < 65536 -> ub_wf ub ->
  no_frame_end bytes (state ub) = true ->
  read ub + Z.of_nat (length (decoded_bytes bytes (state ub))) < buf_size ->
  exists ub', uart_isr_bytes bytes ub = Some ub' /\ ub_wf ub' /\
    read ub' = read ub + Z.of_nat (length (decoded_bytes bytes (state ub))) /\
    reading_buf ub' = reading_buf ub /\ command ub' = command ub /\
    state ub' = slip_state_after bytes (state ub) /\
    (forall (i : nat) (x : Z),
       decoded_bytes bytes (state ub) !! i = Some x ->
       byte_at ub' (reading_buf ub) (read ub + Z.of_nat i) = Some x) /\
    (forall p j, 0 <= j -> p <> reading_buf ub \/ j < read ub ->
       byte_at ub' p j = byte_at ub p j).
Proof.
  intros Hm Hcap. revert ub.
  induction bytes as [|b rest IH]; intros ub Hwf Hopen Hfit.
  - exists ub. simpl. repeat split; try apply Hwf; try lia.
    intros i x Hix. destruct i; discriminate.
  - simpl in Hopen, Hfit.
    destruct (uart_isr_receive_open b ub Hm Hcap Hwf) as
      (ub1 & Hrun1 & Hwf1 & Hrb1 & Hcmd1 & Hread1 & Hstore1).
    { destruct (SLIP_recv_byte b (state ub)) as [r st]. simpl.
      apply andb_true_iff in Hopen. destruct Hopen as [Hne _].
      apply negb_true_iff, Z.eqb_neq in Hne. exact Hne. }
    { destruct (SLIP_recv_byte b (state ub)) as [r st]. simpl.
      intros Hr. destruct (Z.leb_spec 0 r); [|lia].
      simpl in Hfit. lia. }
    destruct (uart_isr_receive_other_bytes b ub ub1 Hrun1
                ltac:(apply Hwf)) as [Hst1 Hother1].
    assert (Hrd : 0 <= read ub) by apply Hwf.
    destruct (SLIP_recv_byte b (state ub)) as [r st] eqn:Hrecv.
    simpl in Hread1, Hstore1, Hst1, Hother1.
    apply andb_true_iff in Hopen. destruct Hopen as [_ Hopen].
    rewrite <- Hst1 in Hopen, Hfit.
    destruct (IH ub1 Hwf1 Hopen) as
      (ub' & Hrun & Hwf' & Hread & Hrb & Hcmd & Hst & Hdata & Hrest).
    { rewrite Hread1. destruct (0 <=? r); simpl in Hfit; lia. }
    exists ub'. simpl. rewrite Hrun1, Hrecv.
    split; [exact Hrun|]. split; [exact Hwf'|].
    rewrite <- Hst1.
    split; [rewrite Hread, Hread1; destruct (0 <=? r); simpl; lia|].
    split; [congruence|]. split; [congruence|].
    split; [rewrite Hst; reflexivity|].
    split.
    + intros i x Hix. destruct (Z.leb_spec 0 r) as [Hr|Hr].
      * destruct i as [|i]; simpl in Hix.
        -- injection Hix as <-. rewrite Z.add_0_r.
           rewrite <- Hrb1, Hrest; [|lia|right; lia].
           rewrite Hrb1. apply Hstore1. exact Hr.
        -- rewrite <- Hrb1.
           replace (read ub + Z.of_nat (S i)) with (read ub1 + Z.of_nat i)
             by lia.
           apply Hdata. exact Hix.
      * rewrite <- Hrb1.
        replace (read ub) with (read ub1) by exact Hread1.
        apply Hdata. exact Hix.
    + intros p j Hj Hcase.
      rewrite Hrest, Hother1; try reflexivity; try exact Hj.
      * destruct Hcase as [Hp|Hlt]; [left; exact Hp|right; left; lia].
      * rewrite Hrb1, Hread1.
        destruct Hcase as [Hp|Hlt]; [left; exact Hp|].
        right. destruct (0 <=? r); lia.
Qed.

Lemma completes_frame_on_end (byte : Z) (ub : uart_buf_t) :
  fst (SLIP_recv_byte byte (state ub)) = SLIP_FINISHED_FRAME ->
  SLIP_FINISHED_FRAME < 0 ->
  completes_frame byte ub = true.
Proof.
  unfold completes_frame, store_decoded.
  destruct (SLIP_recv_byte byte (state ub)) as [r st]. simpl.
  intros -> Hneg. destruct (Z.leb_spec 0 SLIP_FINISHED_FRAME); [lia|].
  apply Z.eqb_refl.
Qed.

(** X6: a frame that fits is delivered intact: after the bytes of the
    frame and the byte on which the decoder signals the end of the
    frame, the ready pointer designates the buffer that was being
    filled, that buffer starts with the decoded bytes in order, the
    offset is 0 and reception continues in the other buffer. *)
Theorem uart_isr_bytes_delivers_frame
    (bytes : list Z) (last : Z) (ub : uart_buf_t) :
  0 <= MAX_WRITE_BLOCK -> MAX_WRITE_BLOCK + 64 < 65536 -> ub_wf ub ->
  read ub = 0 -> SLIP_FINISHED_FRAME < 0 ->
  no_frame_end bytes (state ub) = true ->
  Z.of_nat (length (decoded_bytes bytes (state ub))) < buf_size ->
  fst (SLIP_recv_byte last (slip_state_after bytes (state ub)))
    = SLIP_FINISHED_FRAME ->
  exists ub', uart_isr_bytes (bytes ++ [last]) ub = Some ub' /\
    command ub' = reading_buf ub /\
    reading_buf ub' = other_buf (reading_buf ub) /\
    read ub' = 0 /\
    (forall (i : nat) (x : Z),
       decoded_bytes bytes (state ub) !! i = Some x ->
       byte_at ub' (command ub') (Z.of_nat i) = Some x).
Proof.
  intros Hm Hcap Hwf Hzero Hneg Hopen Hfit Hend.
  destruct (uart_isr_bytes_stores_in_order bytes ub Hm Hcap Hwf Hopen
              ltac:(lia))
    as (ub1 & Hrun1 & Hwf1 & Hread1 & Hrb1 & Hcmd1 & Hst1 & Hdata1 & _).
  destruct (uart_isr_receive_step last ub1 Hm Hcap Hwf1)
    as (ub' & Hrun & _ & _ & Hdone & _).
  rewrite <- Hst1 in Hend.
  destruct (Hdone (completes_frame_on_end last ub1 Hend Hneg))
    as (Hcmd & Hrb & Hread).
  destruct (uart_isr_receive_other_bytes last ub1 ub' Hrun
              ltac:(apply Hwf1)) as [_ Hother].
  exists ub'. rewrite uart_isr_bytes_app, Hrun1. simpl. rewrite Hrun.
  split; [reflexivity|]. split; [congruence|].
  split; [congruence|]. split; [exact Hread|].
  intros i x Hix. rewrite Hcmd, Hrb1.
  rewrite Hother by (try lia; right; right; lia).
  specialize (Hdata1 i x Hix). rewrite Hzero in Hdata1. exact Hdata1.
Qed.


End ReceiveFrames.

(** ** The interrupt handler *)

Section IsrFacts.
Context `{Slip} `{BlockSize} `{UartRegs}.

Lemma uart_isr_receive_keeps_invariants (byte : Z) (ub : uart_buf_t) :
  0 <= MAX_WRITE_BLOCK -> MAX_WRITE_BLOCK + 64 < 65536 ->
  ub_wf ub -> ready_not_active ub ->
  exists ub', uart_isr_receive byte ub = Some ub' /\
              ub_wf ub' /\ ready_not_active ub'.
Proof.
  intros Hm Hcap Hwf Hinv.
  destruct (uart_isr_receive_step byte ub Hm Hcap Hwf)
    as (ub' & Hrun & Hwf' & _ & Hdone & Hkeep).
  exists ub'. split; [exact Hrun|]. split; [exact Hwf'|].
  unfold ready_not_active in *.
  destruct (completes_frame byte ub).
  - destruct (Hdone eq_refl) as (-> & -> & _).
    destruct (reading_buf ub); simpl; congruence.
  - destruct (Hkeep eq_refl) as (-> & -> & _). exact Hinv.
Qed.

Lemma drain_fifo_safe (n : nat) (hw : HW) (ub : uart_buf_t) :
  0 <= MAX_WRITE_BLOCK -> MAX_WRITE_BLOCK + 64 < 65536 ->
  ub_wf ub -> ready_not_active ub ->
  exists hw' ub', drain_fifo n hw ub = Some (hw', ub') /\
                  ub_wf ub' /\ ready_not_active ub'.
Proof.
  intros Hm Hcap. revert hw ub.
  induction n as [|n IH]; intros hw ub Hwf Hinv; simpl.
  - eauto.
  - destruct (READ_UART_FIFO hw) as [v hw1].
    destruct (uart_isr_receive_keeps_invariants (Z.land v 255) ub
                Hm Hcap Hwf Hinv) as (ub1 & -> & Hwf1 & Hinv1).
    apply IH; assumption.
Qed.

Lemma uart_isr_loop_safe (fuel : nat) (hw : HW) (ub : uart_buf_t) :
  0 <= MAX_WRITE_BLOCK -> MAX_WRITE_BLOCK + 64 < 65536 ->
  ub_wf ub -> ready_not_active ub ->
  uart_isr_loop fuel hw ub <> Isr_fault /\
  forall hw' ub', uart_isr_loop fuel hw ub = Isr_done hw' ub' ->
                  ub_wf ub' /\ ready_not_active ub'.
Proof.
  intros Hm Hcap. revert hw ub.
  induction fuel as [|fuel IH]; intros hw ub Hwf Hinv; simpl.
  - split; [discriminate|]. intros hw' ub' Hd. discriminate.
  - destruct (READ_UART_STATUS hw) as [st hw1].
    destruct (Z.land st 255 =? 0).
    + split; [discriminate|]. intros hw' ub' [= _ <-]. split; assumption.
    + destruct (drain_fifo_safe (Z.to_nat (Z.land st 255)) hw1 ub
                  Hm Hcap Hwf Hinv) as (hw2 & ub2 & -> & Hwf2 & Hinv2).
      apply IH; assumption.
Qed.

(** X8: whatever the UART registers read, [uart_isr] never stores
    outside a buffer, and when it returns the buffers are still well
    formed and the ready pointer still differs from the receive target. *)
Theorem uart_isr_never_faults (fuel : nat) (hw : HW) (ub : uart_buf_t) :
  0 <= MAX_WRITE_BLOCK -> MAX_WRITE_BLOCK + 64 < 65536 ->
  ub_wf ub -> ready_not_active ub ->
  uart_isr fuel hw ub <> Isr_fault /\
  forall hw' ub', uart_isr fuel hw ub = Isr_done hw' ub' ->
                  ub_wf ub' /\ ready_not_active ub'.
Proof.
  intros Hm Hcap Hwf Hinv. unfold uart_isr.
  destruct (READ_UART_INT_ST hw) as [int_st hw0].
  destruct (uart_isr_loop_safe fuel hw0 ub Hm Hcap Hwf Hinv) as [Hnf Hdone].
  destruct (uart_isr_loop fuel hw0 ub) as [hw1 ub1| |].
  - split; [discriminate|]. intros hw' ub' [= _ <-].
    apply (Hdone hw1 ub1). reflexivity.
  - contradiction.
  - split; discriminate.
Qed.

End IsrFacts.

(** ** Dispatcher: the remaining paths *)

Section DispatcherPaths.
Context `{BlockSize} `{ErrorCodes} `{Collaborators}.

Ltac unfold_body :=
  unfold run, cmd_loop_body, make_response, pre_action, post_action,
    check_flash_data, c_lor, verify_data_len, bind, ret, emit, call,
    call_void, query, header_events, status_events, ESP_OK.

(** Split on every test and every collaborator result in the goal. *)
Ltac split_tests :=
  repeat (match goal with
          | |- context [decide (?o = ESP_READ_REG /\ ?n = 4)] =>
              destruct (decide (o = ESP_READ_REG /\ n = 4)) as [[? ?]|?]
          | |- context [?a >? ?b] => destruct (Z.gtb_spec a b)
          | |- context [if ?a =? ?b then _ else _] =>
              destruct (Z.eqb_spec a b)
          | |- context [if is_in_flash_mode ?s then _ else _] =>
              destruct (is_in_flash_mode s) eqn:?
          | |- context [SPIEraseChip ?s] =>
              destruct (SPIEraseChip s) as [? ?]
          | |- context [handle_flash_erase ?a ?b ?s] =>
              destruct (handle_flash_erase a b s) as [? ?]
          | |- context [handle_flash_get_md5sum ?a ?b ?s] =>
              destruct (handle_flash_get_md5sum a b s) as [? ?]
          | |- context [handle_flash_begin ?a ?b ?s] =>
              destruct (handle_flash_begin a b s) as [? ?]
          | |- context [handle_flash_deflated_begin ?a ?b ?c ?s] =>
              destruct (handle_flash_deflated_begin a b c s) as [? ?]
          | |- context [handle_flash_end ?s] =>
              destruct (handle_flash_end s) as [? ?]
          | |- context [handle_spi_set_params ?l ?z ?s] =>
              destruct (handle_spi_set_params l z s) as [[? ?] ?]
          | |- context [handle_spi_attach ?a ?b ?s] =>
              destruct (handle_spi_attach a b s) as [? ?]
          end; simpl in *; subst; try lia; try congruence).

(** X9: an op the dispatcher does not know is answered with
    ESP_CMD_NOT_IMPLEMENTED and status 0; nothing is called and the
    collaborators' state is unchanged. *)
Theorem cmd_loop_body_unknown_op
    (s : FS) (c : esp_command_req_t) (code : Z) :
  op c = ESP_OTHER code -> data_len c <= MAX_WRITE_BLOCK + 16 ->
  run (cmd_loop_body c) s =
    (Next, mk_world s (header_events (mk_resp 1 (ESP_OTHER code) 0 0)
                         ++ status_events ESP_CMD_NOT_IMPLEMENTED 0)).
Proof.
  intros Hop Hlen. destruct c as [o n k d]. simpl in *. subst o.
  unfold_body. simpl. split_tests; reflexivity.
Qed.

(** X10: a data command outside a write session is answered with
    ESP_NOT_IN_FLASH_MODE, whatever its length word and checksum; no
    block is forwarded and the collaborators' state is unchanged. *)
Theorem cmd_loop_body_data_outside_session (s : FS) (c : esp_command_req_t) :
  op c = ESP_FLASH_DATA \/ op c = ESP_FLASH_DEFLATED_DATA ->
  is_in_flash_mode s = false ->
  data_len c <= MAX_WRITE_BLOCK + 16 -> ESP_NOT_IN_FLASH_MODE <> 0 ->
  run (cmd_loop_body c) s =
    (Next, mk_world s (header_events (mk_resp 1 (op c) 0 0)
                         ++ status_events ESP_NOT_IN_FLASH_MODE 0)).
Proof.
  intros Hop Hout Hlen Hne. destruct c as [o n k d]. simpl in *.
  unfold_body. simpl.
  destruct Hop; subst o; simpl; rewrite ?Hout; split_tests; reflexivity.
Qed.

(** X11: the seven ops written [verify_data_len(..) || handler(..)]
    never pass a code of their handler through: inside the size limit
    the error byte of the response is 0 or 1. *)
Theorem cmd_loop_body_or_error_is_boolean (s : FS) (c : esp_command_req_t) :
  uses_logical_or (op c) = true -> data_len c <= MAX_WRITE_BLOCK + 16 ->
  fst (run (cmd_loop_body c) s) = Next /\
  (response_error (trace (snd (run (cmd_loop_body c) s))) = Some 0 \/
   response_error (trace (snd (run (cmd_loop_body c) s))) = Some 1).
Proof.
  intros Hor Hlen. destruct c as [o n k d]. simpl in *.
  unfold_body. simpl.
  destruct o; simpl in Hor; try discriminate; simpl;
    split_tests; simpl; auto.
Qed.

(** X12: [ESP_WRITE_REG] with its 16 bytes writes [data_words[1]] to the
    register [data_words[0]], once and before the status is sent, and
    reports error 0. *)
Theorem cmd_loop_body_write_reg (s : FS) (c : esp_command_req_t) :
  0 <= MAX_WRITE_BLOCK ->
  op c = ESP_WRITE_REG -> data_len c = 16 ->
  run (cmd_loop_body c) s =
    (Next, mk_world (REG_WRITE (data_words c 0) (data_words c 1) s)
             (header_events (mk_resp 1 ESP_WRITE_REG 0 0)
                ++ Ev_REG_WRITE (data_words c 0) (data_words c 1)
                :: status_events 0 0)).
Proof.
  intros Hm Hop Hlen. destruct c as [o n k d]. simpl in *. subst o n.
  unfold_body. simpl. split_tests; reflexivity.
Qed.


(** X14: [ESP_READ_FLASH] with its 16 bytes is acknowledged first (error
    0); the read is started after the response, with the four payload
    words as offset, length, block size and maximum in flight. *)
Theorem cmd_loop_body_read_flash (s : FS) (c : esp_command_req_t) :
  0 <= MAX_WRITE_BLOCK ->
  op c = ESP_READ_FLASH -> data_len c = 16 ->
  run (cmd_loop_body c) s =
    (Next, mk_world
             (handle_flash_read (data_words c 0) (data_words c 1)
                                (data_words c 2) (data_words c 3) s)
             (header_events (mk_resp 1 ESP_READ_FLASH 0 0)
                ++ status_events 0 0
                ++ [Ev_handle_flash_read (data_words c 0) (data_words c 1)
                                         (data_words c 2) (data_words c 3)])).
Proof.
  intros Hm Hop Hlen. destruct c as [o n k d]. simpl in *. subst o n.
  unfold_body. simpl. split_tests; reflexivity.
Qed.

(** A data block that passes the three checks is acknowledged and then
    handed to the write pipeline, without its 16-byte header. *)
Lemma flash_data_accepted (s : FS) (c : esp_command_req_t) :
  op c = ESP_FLASH_DATA ->
  is_in_flash_mode s = true -> get_flash_error s = 0 ->
  data_len c <= MAX_WRITE_BLOCK + 16 ->
  data_words c 0 = to_uint32 (data_len c - 16) ->
  calculate_checksum (drop 16 (data_buf c)) (data_len c - 16) = checksum c ->
  run (cmd_loop_body c) s =
    (Next, mk_world
             (handle_flash_data (drop 16 (data_buf c)) (data_len c - 16) s)
             (header_events (mk_resp 1 ESP_FLASH_DATA 0 0)
                ++ status_events 0 0
                ++ [Ev_handle_flash_data (drop 16 (data_buf c))
                                         (data_len c - 16)])).
Proof.
  intros Hop Hin Herr Hlen Hword Hsum. destruct c as [o n k d].
  simpl in *. subst o.
  unfold_body. simpl. split_tests; reflexivity.
Qed.

(** X15: a [ESP_FLASH_DATA] block of at least 16 bytes inside a write
    session with no earlier error, whose length word is [data_len - 16]
    and whose payload checksum is the header's checksum field, is
    acknowledged with error 0 before it is written: [handle_flash_data]
    is called after the response, on the bytes behind the 16-byte data
    header and with their number. *)
Theorem cmd_loop_body_flash_data_forwarded (s : FS) (c : esp_command_req_t) :
  op c = ESP_FLASH_DATA ->
  is_in_flash_mode s = true -> get_flash_error s = 0 ->
  16 <= data_len c <= MAX_WRITE_BLOCK + 16 -> data_len c < 65536 ->
  data_words c 0 = data_len c - 16 ->
  calculate_checksum (drop 16 (data_buf c)) (data_len c - 16) = checksum c ->
  run (cmd_loop_body c) s =
    (Next, mk_world
             (handle_flash_data (drop 16 (data_buf c)) (data_len c - 16) s)
             (header_events (mk_resp 1 ESP_FLASH_DATA 0 0)
                ++ status_events 0 0
                ++ [Ev_handle_flash_data (drop 16 (data_buf c))
                                         (data_len c - 16)])).
Proof.
  intros Hop Hin Herr Hlen Hu16 Hword Hsum.
  apply flash_data_accepted; try assumption; try lia.
  rewrite Hword. unfold to_uint32. symmetry. apply Z.mod_small. lia.
Qed.

(** X16: a [ESP_FLASH_DATA] command shorter than the 16-byte data header
    is not rejected for its length.  [payload_len] is negative, the
    checksum loop does not run and yields the seed 0xEF, and the length
    word is compared with [payload_len] converted to unsigned: with
    length word [2^32 + data_len - 16] and checksum field 0xEF the
    command is acknowledged with error 0 and [handle_flash_data] is
    called with the negative length. *)
Theorem cmd_loop_body_flash_data_short (s : FS) (c : esp_command_req_t) :
  0 <= MAX_WRITE_BLOCK ->
  op c = ESP_FLASH_DATA ->
  is_in_flash_mode s = true -> get_flash_error s = 0 ->
  0 <= data_len c < 16 ->
  data_words c 0 = 4294967296 + (data_len c - 16) ->
  checksum c = 239 ->
  data_len c - 16 < 0 /\
  run (cmd_loop_body c) s =
    (Next, mk_world
             (handle_flash_data (drop 16 (data_buf c)) (data_len c - 16) s)
             (header_events (mk_resp 1 ESP_FLASH_DATA 0 0)
                ++ status_events 0 0
                ++ [Ev_handle_flash_data (drop 16 (data_buf c))
                                         (data_len c - 16)])).
Proof.
  intros Hm Hop Hin Herr Hlen Hword Hsum. split; [lia|].
  apply flash_data_accepted; try assumption; try lia.
  - rewrite Hword. unfold to_uint32.
    rewrite <- (Z.mod_small (4294967296 + (data_len c - 16)) 4294967296) at 1
      by lia.
    rewrite Z.add_comm, Z.add_mod by lia.
    rewrite Z.mod_same, Z.add_0_r, Z.mod_mod by lia. reflexivity.
  - rewrite Hsum. unfold calculate_checksum.
    replace (Z.to_nat (data_len c - 16)) with O by lia. reflexivity.
Qed.

(** X21: [ESP_FLASH_BEGIN] with its 16 bytes starts the write session
    before the status is sent: [handle_flash_begin] is called once, with
    the total size [num_blocks * block_size] reduced modulo 2^32 and the
    offset; the first payload word (the erase size) is not used; and
    the error byte is 0 when the handler returned 0 and 1 otherwise. *)
Theorem cmd_loop_body_flash_begin (s : FS) (c : esp_command_req_t) :
  0 <= MAX_WRITE_BLOCK ->
  op c = ESP_FLASH_BEGIN -> data_len c = 16 ->
  let total := to_uint32 (data_words c 1 * data_words c 2) in
  let r := handle_flash_begin total (data_words c 3) s in
  run (cmd_loop_body c) s =
    (Next, mk_world (snd r)
             (header_events (mk_resp 1 ESP_FLASH_BEGIN 0 0)
                ++ Ev_handle_flash_begin total (data_words c 3)
                :: status_events (if fst r =? 0 then 0 else 1) 0)).
Proof.
  intros Hm Hop Hlen total r. subst total r.
  destruct c as [o n k d]. simpl in *. subst o n.
  unfold_body. simpl. split_tests; reflexivity.
Qed.

End DispatcherPaths.

(** ** Dispatcher: the shape of every pass *)

Section DispatcherShape.
Context `{BlockSize} `{ErrorCodes} `{Collaborators}.

Ltac unfold_body :=
  unfold run, cmd_loop_body, make_response, pre_action, post_action,
    check_flash_data, c_lor, verify_data_len, bind, ret, emit, call,
    call_void, query, header_events, status_events, ESP_OK.

Ltac split_calls :=
  repeat (match goal with
          | |- context [decide (?o = ESP_READ_REG /\ ?n = 4)] =>
              destruct (decide (o = ESP_READ_REG /\ n = 4)) as [[? ?]|?]
          | |- context [?a >? ?b] => destruct (Z.gtb_spec a b)
          | |- context [if ?a =? ?b then _ else _] =>
              destruct (Z.eqb_spec a b)
          | |- context [if is_in_flash_mode ?s then _ else _] =>
              destruct (is_in_flash_mode s) eqn:?
          | |- context [SPIEraseChip ?s] =>
              destruct (SPIEraseChip s) as [? ?]
          | |- context [handle_flash_erase ?a ?b ?s] =>
              destruct (handle_flash_erase a b s) as [? ?]
          | |- context [handle_flash_get_md5sum ?a ?b ?s] =>
              destruct (handle_flash_get_md5sum a b s) as [? ?]
          | |- context [handle_flash_begin ?a ?b ?s] =>
              destruct (handle_flash_begin a b s) as [? ?]
          | |- context [handle_flash_deflated_begin ?a ?b ?c ?s] =>
              destruct (handle_flash_deflated_begin a b c s) as [? ?]
          | |- context [handle_flash_end ?s] =>
              destruct (handle_flash_end s) as [? ?]
          | |- context [handle_spi_set_params ?l ?z ?s] =>
              destruct (handle_spi_set_params l z s) as [[? ?] ?]
          | |- context [handle_spi_attach ?a ?b ?s] =>
              destruct (handle_spi_attach a b s) as [? ?]
          end; simpl).

Ltac size_split :=
  match goal with
  | |- context [?a >? ?b] => destruct (Z.gtb_spec a b); simpl
  end.


(** X22: inside the size limit the status byte of the response is 0 for
    every op except [ESP_SPI_SET_PARAMS], the one case that passes
    [&status] to its handler. *)
Theorem cmd_loop_body_status_zero (s : FS) (c : esp_command_req_t) :
  op c <> ESP_SPI_SET_PARAMS -> data_len c <= MAX_WRITE_BLOCK + 16 ->
  exists v e,
    slip_events (trace (snd (run (cmd_loop_body c) s))) =
      header_events (mk_resp 1 (op c) 0 v) ++ status_events e 0.
Proof.
  destruct c as [o n k d]. unfold_body. simpl. intros Hop Hlen.
  destruct (decide (o = ESP_READ_REG /\ n = 4)) as [[-> ->]|Hrr]; simpl;
    (size_split; [lia|try destruct o; simpl; split_calls]);
    try congruence;
    eexists _, _; reflexivity.
Qed.

(** X18: when the error byte of the response is not 0, the pass ends
    there: no second-stage call is made (no baud change, no flash read,
    no block write, no flush, no reset) and the loop goes on. *)
Theorem cmd_loop_body_error_stops (s : FS) (c : esp_command_req_t) :
  response_error (trace (snd (run (cmd_loop_body c) s))) <> Some 0 ->
  fst (run (cmd_loop_body c) s) = Next /\
  forallb (fun e => negb (is_post_event e))
          (trace (snd (run (cmd_loop_body c) s))) = true.
Proof.
  destruct c as [o n k d]. unfold_body. simpl.
  destruct (decide (o = ESP_READ_REG /\ n = 4)) as [[-> ->]|Hrr]; simpl;
    (size_split; [|try destruct o; simpl; split_calls]);
    intros Hne; try (split; reflexivity);
    exfalso; apply Hne; congruence.
Qed.

(** One pass calls [software_reset()] once when it ends in the reset,
    as its last action, and never otherwise. *)
Lemma cmd_loop_body_reset_count (s : FS) (c : esp_command_req_t) :
  count_resets (trace (snd (run (cmd_loop_body c) s))) =
    match fst (run (cmd_loop_body c) s) with
    | Reset => 1%nat
    | Next => 0%nat
    end /\
  (fst (run (cmd_loop_body c) s) = Reset ->
   last (trace (snd (run (cmd_loop_body c) s))) = Some Ev_software_reset).
Proof.
  destruct c as [o n k d]. unfold_body. simpl.
  destruct (decide (o = ESP_READ_REG /\ n = 4)) as [[-> ->]|Hrr]; simpl;
    (size_split; [|try destruct o; simpl; split_calls]);
    (split; [reflexivity|]); intros Hr; try discriminate; reflexivity.
Qed.

(** A pass only appends to the trace, and does not depend on it. *)
Lemma cmd_loop_body_frame (c : esp_command_req_t) (s : FS) (t : list event) :
  cmd_loop_body c (mk_world s t) =
    (fst (run (cmd_loop_body c) s),
     mk_world (fs (snd (run (cmd_loop_body c) s)))
              (t ++ trace (snd (run (cmd_loop_body c) s)))).
Proof.
  destruct c as [o n k d]. unfold_body. simpl.
  destruct (decide (o = ESP_READ_REG /\ n = 4)) as [[-> ->]|Hrr]; simpl;
    (size_split; [|try destruct o; simpl; split_calls]);
    rewrite <- ?app_assoc; reflexivity.
Qed.

Lemma cmd_loop_frame (cs : list esp_command_req_t) (s : FS) (t : list event) :
  cmd_loop cs (mk_world s t) =
    (fst (run (cmd_loop cs) s),
     mk_world (fs (snd (run (cmd_loop cs) s)))
              (t ++ trace (snd (run (cmd_loop cs) s)))).
Proof.
  revert s t. induction cs as [|c rest IH]; intros s t.
  - unfold run. simpl. unfold ret. simpl. rewrite app_nil_r. reflexivity.
  - unfold run. simpl. unfold bind.
    rewrite (cmd_loop_body_frame c s t), (cmd_loop_body_frame c s []).
    destruct (fst (run (cmd_loop_body c) s)).
    + rewrite IH. simpl. rewrite (IH _ (trace _)). simpl.
      rewrite app_assoc. reflexivity.
    + unfold ret. reflexivity.
Qed.

Lemma cmd_loop_cons_next_aux
    (c : esp_command_req_t) (rest : list esp_command_req_t) (s : FS) :
  fst (run (cmd_loop_body c) s) = Next ->
  run (cmd_loop (c :: rest)) s =
    (fst (run (cmd_loop rest) (fs (snd (run (cmd_loop_body c) s)))),
     mk_world
       (fs (snd (run (cmd_loop rest) (fs (snd (run (cmd_loop_body c) s))))))
       (trace (snd (run (cmd_loop_body c) s))
          ++ trace (snd (run (cmd_loop rest)
                           (fs (snd (run (cmd_loop_body c) s))))))).
Proof.
  intros Hnext. unfold run at 1. simpl. unfold bind.
  rewrite (cmd_loop_body_frame c s []). rewrite Hnext. simpl.
  apply cmd_loop_frame.
Qed.


Lemma count_resets_app (t u : list event) :
  count_resets (t ++ u) = (count_resets t + count_resets u)%nat.
Proof.
  induction t as [|e t IH]; simpl; [reflexivity|].
  destruct e; simpl; rewrite IH; reflexivity.
Qed.

(** X20: over any sequence of commands [software_reset()] is called at
    most once: exactly once, as the last thing the loop does, when the
    loop ends in the reset, and not at all otherwise. *)
Theorem cmd_loop_resets_once (cs : list esp_command_req_t) (s : FS) :
  count_resets (trace (snd (run (cmd_loop cs) s))) =
    match fst (run (cmd_loop cs) s) with
    | Reset => 1%nat
    | Next => 0%nat
    end /\
  (fst (run (cmd_loop cs) s) = Reset ->
   last (trace (snd (run (cmd_loop cs) s))) = Some Ev_software_reset).
Proof.
  revert s. induction cs as [|c rest IH]; intros s.
  - unfold run. simpl. split; [reflexivity|discriminate].
  - destruct (cmd_loop_body_reset_count s c) as [Hcount Hlast].
    destruct (fst (run (cmd_loop_body c) s)) eqn:Ho.
    + rewrite (cmd_loop_cons_next_aux c rest s Ho). simpl.
      destruct (IH (fs (snd (run (cmd_loop_body c) s)))) as [IHc IHl].
      rewrite count_resets_app, Hcount. simpl. split; [exact IHc|].
      intros Hr. specialize (IHl Hr).
      destruct (trace (snd (run (cmd_loop rest) _))) as [|e u] eqn:Hu;
        [discriminate|].
      rewrite last_app_cons. simpl. rewrite <- IHl.
      rewrite last_cons. destruct (last u); reflexivity.
    + rewrite (cmd_loop_stops_at_reset s c rest Ho). rewrite Ho.
      split; [exact Hcount|]. intros _. apply Hlast. reflexivity.
Qed.

End DispatcherShape.

(** ** The further properties at concrete inputs *)

Lemma calculate_checksum_app_witness :
  calculate_checksum ([1; 2] ++ [3]) 3 =
    Z.lxor (calculate_checksum [1; 2] 2)
           (Z.lxor 239 (calculate_checksum [3] 1)).
Proof.
  apply (calculate_checksum_app [1; 2] [3]);
    repeat constructor; unfold is_byte; lia.
Defined.

Lemma calculate_checksum_permutation_witness :
  calculate_checksum [2; 1; 3] 3 = calculate_checksum [1; 2; 3] 3.
Proof.
  apply (calculate_checksum_permutation [1; 2; 3] [2; 1; 3]).
  - repeat constructor; unfold is_byte; lia.
  - apply perm_swap.
Defined.

Lemma baud_rate_to_divider_rounds_witness :
  2 * Z.abs (16 * 40000000 - baud_rate_to_divider 40000000 115200 * 115200)
    <= 115200.
Proof.
  apply (baud_rate_to_divider_rounds 40000000 115200).
  - lia.
  - lia.
  - vm_compute. reflexivity.
Defined.

Lemma uart_isr_bytes_stores_in_order_witness :
  exists ub', receive_small [1; 219; 220; 7] = Some ub' /\
    @read slip_model ub' = 3 /\
    @byte_at slip_model small_block ub' BUF_A 1 = Some 192.
Proof.
  unfold receive_small.
  destruct (@uart_isr_bytes_stores_in_order slip_model small_block
              [1; 219; 220; 7] (@ub_init slip_model small_block))
    as (ub' & Hrun & _ & Hread & _ & _ & _ & Hdata & _).
  - simpl; lia.
  - simpl; lia.
  - apply (@ub_init_wf slip_model small_block). simpl; lia.
  - reflexivity.
  - vm_compute. reflexivity.
  - exists ub'. split; [exact Hrun|]. split; [exact Hread|].
    apply (Hdata 1%nat 192). reflexivity.
Defined.

Lemma uart_isr_bytes_delivers_frame_witness :
  exists ub', receive_small ([1; 219; 220; 7] ++ [192]) = Some ub' /\
    @command slip_model ub' = BUF_A /\
    @reading_buf slip_model ub' = BUF_B /\
    @read slip_model ub' = 0.
Proof.
  unfold receive_small.
  destruct (@uart_isr_bytes_delivers_frame slip_model small_block
              [1; 219; 220; 7] 192 (@ub_init slip_model small_block))
    as (ub' & Hrun & Hcmd & Hrb & Hread & _).
  - simpl; lia.
  - simpl; lia.
  - apply (@ub_init_wf slip_model small_block). simpl; lia.
  - reflexivity.
  - simpl; lia.
  - reflexivity.
  - vm_compute. reflexivity.
  - reflexivity.
  - exists ub'. repeat split; assumption.
Defined.


Lemma uart_isr_never_faults_witness :
  @uart_isr slip_model small_block fifo_uart 3 [1; 192]
    (@ub_init slip_model small_block) <> @Isr_fault slip_model fifo_uart.
Proof.
  destruct (@uart_isr_never_faults slip_model small_block fifo_uart 3
              [1; 192] (@ub_init slip_model small_block)) as [Hnf _].
  - simpl; lia.
  - simpl; lia.
  - apply (@ub_init_wf slip_model small_block). simpl; lia.
  - unfold ready_not_active. simpl. discriminate.
  - exact Hnf.
Defined.

Lemma cmd_loop_body_unknown_op_witness :
  run_stub (mk_req (ESP_OTHER 8) 0 0 []) idle =
    (Next, @mk_world mock idle
             (header_events (mk_resp 1 (ESP_OTHER 8) 0 0)
                ++ status_events 255 0)).
Proof.
  unfold run_stub.
  apply (@cmd_loop_body_unknown_op stub_block esptool_codes mock idle
           (mk_req (ESP_OTHER 8) 0 0 []) 8).
  - reflexivity.
  - simpl; lia.
Defined.

Lemma cmd_loop_body_data_outside_session_witness :
  run_stub (data_block ESP_FLASH_DATA 1 0 69) idle =
    (Next, @mk_world mock idle
             (header_events (mk_resp 1 ESP_FLASH_DATA 0 0)
                ++ status_events 198 0)).
Proof.
  unfold run_stub.
  apply (@cmd_loop_body_data_outside_session stub_block esptool_codes mock
           idle (data_block ESP_FLASH_DATA 1 0 69)).
  - left. reflexivity.
  - reflexivity.
  - simpl; lia.
  - simpl; lia.
Defined.

Lemma cmd_loop_body_or_error_is_boolean_witness :
  response_error
    (trace (snd (@run failing_erase_mock outcome
                   (@cmd_loop_body stub_block esptool_codes failing_erase_mock
                      (mk_req ESP_ERASE_REGION 8 0 (le32 4096 ++ le32 4096)))
                   idle))) = Some 0 \/
  response_error
    (trace (snd (@run failing_erase_mock outcome
                   (@cmd_loop_body stub_block esptool_codes failing_erase_mock
                      (mk_req ESP_ERASE_REGION 8 0 (le32 4096 ++ le32 4096)))
                   idle))) = Some 1.
Proof.
  destruct (@cmd_loop_body_or_error_is_boolean stub_block esptool_codes
              failing_erase_mock idle
              (mk_req ESP_ERASE_REGION 8 0 (le32 4096 ++ le32 4096)))
    as [_ Herr].
  - reflexivity.
  - simpl; lia.
  - exact Herr.
Defined.

Lemma cmd_loop_body_write_reg_witness :
  run_stub (mk_req ESP_WRITE_REG 16 0
              (le32 1072693248 ++ le32 5 ++ le32 0 ++ le32 0)) idle =
    (Next, @mk_world mock idle
             (header_events (mk_resp 1 ESP_WRITE_REG 0 0)
                ++ Ev_REG_WRITE 1072693248 5 :: status_events 0 0)).
Proof.
  unfold run_stub.
  apply (@cmd_loop_body_write_reg stub_block esptool_codes mock idle
           (mk_req ESP_WRITE_REG 16 0
              (le32 1072693248 ++ le32 5 ++ le32 0 ++ le32 0))).
  - simpl; lia.
  - reflexivity.
  - reflexivity.
Defined.


Lemma cmd_loop_body_read_flash_witness :
  run_stub (mk_req ESP_READ_FLASH 16 0
              (le32 4096 ++ le32 256 ++ le32 64 ++ le32 2)) idle =
    (Next, @mk_world mock idle
             (header_events (mk_resp 1 ESP_READ_FLASH 0 0)
                ++ status_events 0 0
                ++ [Ev_handle_flash_read 4096 256 64 2])).
Proof.
  unfold run_stub.
  apply (@cmd_loop_body_read_flash stub_block esptool_codes mock idle
           (mk_req ESP_READ_FLASH 16 0
              (le32 4096 ++ le32 256 ++ le32 64 ++ le32 2))).
  - simpl; lia.
  - reflexivity.
  - reflexivity.
Defined.

Lemma cmd_loop_body_flash_data_forwarded_witness :
  run_stub (data_block ESP_FLASH_DATA 1 0 69) in_session =
    (Next, @mk_world mock in_session
             (header_events (mk_resp 1 ESP_FLASH_DATA 0 0)
                ++ status_events 0 0
                ++ [Ev_handle_flash_data [170] 1])).
Proof.
  unfold run_stub.
  apply (@cmd_loop_body_flash_data_forwarded stub_block esptool_codes mock
           in_session (data_block ESP_FLASH_DATA 1 0 69)).
  - reflexivity.
  - reflexivity.
  - reflexivity.
  - simpl; lia.
  - simpl; lia.
  - reflexivity.
  - reflexivity.
Defined.

Lemma cmd_loop_body_flash_data_short_witness :
  run_stub (mk_req ESP_FLASH_DATA 15 239
              (le32 4294967295 ++ le32 0 ++ le32 0 ++ [0; 0; 0])) in_session =
    (Next, @mk_world mock in_session
             (header_events (mk_resp 1 ESP_FLASH_DATA 0 0)
                ++ status_events 0 0
                ++ [Ev_handle_flash_data [] (-1)])).
Proof.
  unfold run_stub.
  destruct (@cmd_loop_body_flash_data_short stub_block esptool_codes mock
              in_session
              (mk_req ESP_FLASH_DATA 15 239
                 (le32 4294967295 ++ le32 0 ++ le32 0 ++ [0; 0; 0])))
    as [_ Hrun].
  - simpl; lia.
  - reflexivity.
  - reflexivity.
  - reflexivity.
  - simpl; lia.
  - reflexivity.
  - reflexivity.
  - exact Hrun.
Defined.

Lemma cmd_loop_body_error_stops_witness :
  fst (run_stub erase_region_short idle) = Next /\
  forallb (fun e => negb (is_post_event e))
          (trace (snd (run_stub erase_region_short idle))) = true.
Proof.
  unfold run_stub.
  apply (@cmd_loop_body_error_stops stub_block esptool_codes mock idle
           erase_region_short).
  vm_compute. discriminate.
Defined.


(** The erase handler fails with 0xC4; the response says 1. *)
Example run_erase_region_failing :
  response_error
    (trace (snd (@run failing_erase_mock outcome
                   (@cmd_loop_body stub_block esptool_codes failing_erase_mock
                      (mk_req ESP_ERASE_REGION 8 0 (le32 4096 ++ le32 4096)))
                   idle))) = Some 1.
Proof. reflexivity. Qed.

(** The model UART with two pending bytes, a data byte and the frame
    delimiter: the handler returns with the frame published. *)
Example run_uart_isr :
  @uart_isr slip_model small_block fifo_uart 3 [1; 192]
    (@ub_init slip_model small_block) =
    @Isr_done slip_model fifo_uart []
      (@mk_ub slip_model ([1] ++ repeat 0 65%nat) (repeat 0 66%nat)
              BUF_B 0 false BUF_A).
Proof. reflexivity. Qed.

Lemma cmd_loop_body_flash_begin_witness :
  run_stub (mk_req ESP_FLASH_BEGIN 16 0
              (le32 7 ++ le32 4 ++ le32 256 ++ le32 4096)) idle =
    (Next, @mk_world mock in_session
             (header_events (mk_resp 1 ESP_FLASH_BEGIN 0 0)
                ++ Ev_handle_flash_begin 1024 4096 :: status_events 0 0)).
Proof.
  unfold run_stub.
  apply (@cmd_loop_body_flash_begin stub_block esptool_codes mock idle
           (mk_req ESP_FLASH_BEGIN 16 0
              (le32 7 ++ le32 4 ++ le32 256 ++ le32 4096))).
  - simpl; lia.
  - reflexivity.
  - reflexivity.
Defined.

Lemma cmd_loop_body_status_zero_witness :
  exists v e,
    slip_events (trace (snd (run_stub read_reg_cmd idle))) =
      header_events (mk_resp 1 ESP_READ_REG 0 v) ++ status_events e 0.
Proof.
  unfold run_stub.
  apply (@cmd_loop_body_status_zero stub_block esptool_codes mock idle
           read_reg_cmd).
  - discriminate.
  - simpl; lia.
Defined.

Lemma cmd_loop_resets_once_witness :
  count_resets
    (trace (snd (@run mock outcome
                   (@cmd_loop stub_block esptool_codes mock
                      [end_cmd ESP_FLASH_END; end_cmd ESP_FLASH_END])
                   in_session))) = 1%nat.
Proof.
  destruct (@cmd_loop_resets_once stub_block esptool_codes mock
              [end_cmd ESP_FLASH_END; end_cmd ESP_FLASH_END] in_session)
    as [Hcount _].
  exact Hcount.
Defined.
